(** * The request gateway of the acne-tracker back end (src/back/src/api/api.py)

    A shallow embedding of the three handlers that do real work,
    [save_profile_endpoint], [analyze_endpoint] and [detect_skin_conditions],
    with the file system, the module globals and the external collaborators
    made explicit, followed by the properties of the handlers.

    Conventions.
    - A handler is a function from the module globals ([Env]), its request and
      the [World] to a [result] and the new [World].
    - [raise]/[try ... except ... finally] are those of Python; an exception
      that leaves a handler is what FastAPI answers ([http_status]).
    - [print] and [traceback.print_exc] only write to the console and are left
      out.
    - Creating, writing and closing the temporary file may raise, and
      [cv2.imwrite] may raise or return [False]; [Faults] says which. *)

From Stdlib Require Import ZArith String Ascii List Bool.
From Stdlib Require Import Strings.Byte.
From Stdlib Require Import Floats.PrimFloat.
From stdpp Require Import base gmap strings list pretty.

Local Open Scope Z_scope.
Local Open Scope string_scope.

(** ** Python strings and paths *)

Module Py.

(** [p.startswith(q)] read as [startswith q p]: [q] is a prefix of [p]. *)
Fixpoint startswith (q p : string) : bool :=
  match q, p with
  | EmptyString, _ => true
  | String a q', String b p' => Ascii.eqb a b && startswith q' p'
  | String _ _, EmptyString => false
  end.

(** [q in p] on strings: [q] occurs in [p] as a contiguous substring. *)
Fixpoint str_in (q p : string) : bool :=
  startswith q p ||
  match p with
  | EmptyString => false
  | String _ p' => str_in q p'
  end.

Definition endswith (q p : string) : bool :=
  let n := String.length p in
  let k := String.length q in
  if (k <=? n)%nat then String.eqb (substring (n - k) k p) q else false.

(** [str.lower] on one character. A string is held as its UTF-8 bytes; the
    bytes of a character outside ASCII are all above 127 and are kept. *)
Definition lower_char (c : ascii) : ascii :=
  let n := N_of_ascii c in
  if ((65 <=? n) && (n <=? 90))%N then ascii_of_N (n + 32) else c.

Fixpoint lower (s : string) : string :=
  match s with
  | EmptyString => EmptyString
  | String c s' => String (lower_char c) (lower s')
  end.

(** One step of [posixpath.join]: [path] extended by the component [b]. *)
Definition join1 (path b : string) : string :=
  if startswith "/" b then b
  else if String.eqb path "" || endswith "/" path then path +:+ b
  else path +:+ "/" +:+ b.

(** [os.path.join(a, *p)]. *)
Definition os_path_join (a : string) (p : list string) : string :=
  fold_left join1 p a.

(** Index of the last occurrence of [c] in [s] ([str.rfind]), counted from
    0; [None] stands for Python's -1. *)
Fixpoint rfind_from (c : ascii) (s : string) (i : nat) (last : option nat)
  : option nat :=
  match s with
  | EmptyString => last
  | String d s' =>
      rfind_from c s' (S i) (if Ascii.eqb c d then Some i else last)
  end.

Definition rfind (c : ascii) (s : string) : option nat := rfind_from c s 0 None.

(** The [while] loop of [genericpath._splitext]: whether some character in
    positions [from .. dot-1] is not a dot. *)
Fixpoint has_non_dot (s : string) (from count : nat) : bool :=
  match count with
  | O => false
  | S count' =>
      match String.get from s with
      | Some c => negb (Ascii.eqb c ".") || has_non_dot s (S from) count'
      | None => false
      end
  end.

(** [os.path.splitext(p)[1]]: the extension of [p] with its dot, or the
    empty string. *)
Definition splitext_ext (p : string) : string :=
  match rfind "." p with
  | None => ""
  | Some dot =>
      let filename_index :=
        match rfind "/" p with Some sep => S sep | None => O end in
      if (filename_index <=? dot)%nat
         && has_non_dot p filename_index (dot - filename_index)
      then substring dot (String.length p - dot) p
      else ""
  end.

(** A decimal numeral padded with zeros on the left to [width] digits
    (the [%0Nd] conversions behind [date.isoformat]). *)
Fixpoint zeros (n : nat) : string :=
  match n with O => "" | S n' => String "0" (zeros n') end.

Definition zfill (width : nat) (n : Z) : string :=
  let d := pretty (Z.to_N n) in
  zeros (width - String.length d) +:+ d.

End Py.

(** ** Exceptions and the handler monad *)

(** The exception classes the handlers tell apart. [Exception] stands for
    any other subclass of Python's [Exception]. *)
Inductive exn :=
| HTTPException (status_code : Z) (detail : string)
| FileNotFoundError (msg : string)
| OSError (msg : string)
| Exception (msg : string).

(** [str(e)]: the message of an exception built from one message;
    [starlette]'s [HTTPException] prints its status and detail. *)
Definition str_exn (e : exn) : string :=
  match e with
  | HTTPException status_code detail => pretty status_code +:+ ": " +:+ detail
  | FileNotFoundError msg | OSError msg | Exception msg => msg
  end.

Inductive result (A : Type) :=
| Ok (a : A)
| Raise (e : exn).
Arguments Ok {A} a.
Arguments Raise {A} e.

(** A computation over a state [S] that returns or raises. *)
Definition M (S A : Type) : Type := S -> result A * S.

Definition ret {S A} (a : A) : M S A := fun s => (Ok a, s).

Definition raise {S A} (e : exn) : M S A := fun s => (Raise e, s).

Definition bind {S A B} (m : M S A) (k : A -> M S B) : M S B :=
  fun s =>
    match m s with
    | (Ok a, s') => k a s'
    | (Raise e, s') => (Raise e, s')
    end.

Definition gets {S A} (f : S -> A) : M S A := fun s => (Ok (f s), s).

Definition modify {S} (f : S -> S) : M S unit := fun s => (Ok tt, f s).

(** [try: body except: handler]; an exception raised by the handler leaves
    the statement. *)
Definition try_except {S A} (body : M S A) (handler : exn -> M S A) : M S A :=
  fun s =>
    match body s with
    | (Ok a, s') => (Ok a, s')
    | (Raise e, s') => handler e s'
    end.

(** [try: body finally: cleanup]: the cleanup runs on every exit of the
    body; the body's result stands unless the cleanup raises. *)
Definition try_finally {S A} (body : M S A) (cleanup : M S unit) : M S A :=
  fun s =>
    match body s with
    | (r, s') =>
        match cleanup s' with
        | (Ok _, s'') => (r, s'')
        | (Raise e, s'') => (Raise e, s'')
        end
    end.

Declare Scope py_scope.
Delimit Scope py_scope with py.
Notation "x <- m ;; k" := (bind m (fun x => k))
  (at level 100, m at next level, right associativity) : py_scope.
Notation "m ;; k" := (bind m (fun _ => k))
  (at level 100, right associativity) : py_scope.

(** What the client sees: the status of an [HTTPException], 500 for any other
    exception that leaves the handler, 200 for a returned value. *)
Definition http_status {A} (r : result A) : Z :=
  match r with
  | Ok _ => 200
  | Raise (HTTPException status_code _) => status_code
  | Raise _ => 500
  end.

(** ** Data *)

(** A numpy array holding an image, as [cv2] returns it: [rows] is the
    height, [cols] the width. *)
Record ndarray := {
  rows : Z;
  cols : Z;
  channels : Z;
  pixels : list Z
}.

Record date := { year : Z; month : Z; day : Z }.

(** [date.isoformat()]. *)
Definition isoformat (d : date) : string :=
  Py.zfill 4 (year d) +:+ "-" +:+ Py.zfill 2 (month d) +:+ "-" +:+ Py.zfill 2 (day d).

(** The pydantic model [Profile]. *)
Record Profile := {
  user_id : string;
  name : string;
  dob : date;
  height : float;
  weight : float;
  gender : option string
}.

(** The keyword arguments of [save_profile_to_db]. *)
Record ProfileRow := {
  row_user_id : string;
  row_name : string;
  row_dob : string;
  row_height : float;
  row_weight : float;
  row_gender : option string
}.

(** The pydantic models [DetectionInfo] and [DetectionResponse]. An optional
    field that is [None] is absent from the response. *)
Record DetectionInfo := {
  class_name : string;
  confidence : float
}.

Record DetectionResponse := {
  success : bool;
  message : string;
  severity_score : option float;
  percentage_area : option float;
  average_intensity : option float;
  lesion_count : option Z;
  heatmap_image_base64 : option string;
  detections : option (list DetectionInfo);
  model_classes : option (gmap Z string)
}.

(** A value stored under ['heatmap_overlay_bgr']: a numpy array, or an object
    of another type. *)
Inductive pyobject :=
| PyNdarray (a : ndarray)
| PyOther (repr : string).

(** One entry of the list under ['detections']: a dictionary with the keys
    ['class_name'] and ['confidence']. *)
Record DetectionDict := {
  det_class_name : string;
  det_confidence : float
}.

(** The dictionary [analysis_results] returned by [analyze_skin_image]. Each
    field is one key the handler reads, [None] when the key is missing; the
    values have the types [DetectionResponse] declares for them. *)
Record AnalysisResults := {
  res_success : option bool;
  res_message : option string;
  res_severity_score : option float;
  res_percentage_area : option float;
  res_average_intensity : option float;
  res_lesion_count : option Z;
  res_heatmap_overlay_bgr : option pyobject;
  res_detections : option (list DetectionDict);
  res_model_classes : option (gmap Z string)
}.

(** [dict.get(key)] and [dict.get(key, default)] on a field. *)
Definition dict_get {A} (field : option A) : option A := field.
Definition dict_get_default {A} (field : option A) (default : A) : A :=
  match field with Some v => v | None => default end.

(** Whether a Python object used as a condition is true, for an object that
    is a function or a present key ([Some]) or [None]. *)
Definition is_bound {A} (o : option A) : bool :=
  match o with Some _ => true | None => false end.

(** Truth value of the dictionary: [False] when it has no key. *)
Definition dict_bool (r : AnalysisResults) : bool :=
  is_bound (res_success r) || is_bound (res_message r)
  || is_bound (res_severity_score r) || is_bound (res_percentage_area r)
  || is_bound (res_average_intensity r) || is_bound (res_lesion_count r)
  || is_bound (res_heatmap_overlay_bgr r) || is_bound (res_detections r)
  || is_bound (res_model_classes r).

(** The upload handed to [/detect] ([fastapi.UploadFile]); [content] is what
    [await file.read()] returns. *)
Record UploadFile := {
  filename : string;
  content_type : option string;
  content : list byte
}.

(** ** The world: disk and the calls made to the collaborators *)

Inductive disk_file :=
| FileBytes (data : list byte)
| FileImage (img : ndarray).

Inductive event :=
| CallAnalyzeSkinImage (model_path image_path : string) (staged : option disk_file)
| CallAnalyzeAcneData (db_path : string)
| CallSaveProfileToDb (row : ProfileRow).

Record World := {
  fs : gmap string disk_file;
  calls : list event
}.

Definition set_fs (f : gmap string disk_file -> gmap string disk_file) (w : World)
  : World :=
  {| fs := f (fs w); calls := calls w |}.

Definition log_call (e : event) (w : World) : World :=
  {| fs := fs w; calls := calls w ++ [e] |}.

(** ** Module globals and library functions *)

(** What goes wrong with the temporary file of a call, if anything. *)
Record Faults := {
  (** the message of the [OSError] (a name that is too long, a full disk) or
      [ValueError] (a NUL byte in the name) that
      [tempfile.NamedTemporaryFile] raises for a suffix, if any; line 235
      handles both alike and [OSError] stands for both *)
  tempfile_error : string -> option string;
  (** the [OSError] that [temp_image_file.write] raises on a path for some
      data, if any *)
  write_error : string -> list byte -> option string;
  (** the [OSError] that closing the file at the end of the [with] block
      raises (the buffered data cannot be flushed), if any *)
  close_error : string -> option string;
  (** whether [cv2.imwrite] on a path writes nothing and returns [False] *)
  imwrite_returns_false : string -> bool
}.

Definition no_faults : Faults :=
  {| tempfile_error := fun _ => None;
     write_error := fun _ _ => None;
     close_error := fun _ => None;
     imwrite_returns_false := fun _ => false |}.

(** The bindings of the module and the behaviour of the libraries it calls.
    A collaborator that is [None] is the one the module could not import. *)
Record Env := {
  BACK_DIR : string;
  analyze_skin_image :
    option (string -> string -> gmap string disk_file -> result (option AnalysisResults));
  analyze_acne_data :
    option (string -> gmap string disk_file
            -> result (gmap string (gmap string float) * string));
  save_profile_to_db : option (ProfileRow -> result unit);
  (** the name [tempfile] picks, before the suffix *)
  tempfile_stem : string;
  (** [cv2.imread] on the bytes of a file: the image, or [None] *)
  cv2_imdecode : list byte -> option ndarray;
  (** the pixels [cv2.resize] computes for a target width and height *)
  cv2_interpolate : ndarray -> Z -> Z -> list Z;
  (** the [cv2.error] that [cv2.imwrite] raises on a path, if any (a path
      whose extension has no encoder) *)
  cv2_imwrite_error : string -> option string;
  (** [cv2.imencode('.png', a)] *)
  cv2_imencode_png : ndarray -> result (bool * list byte);
  (** [base64.b64encode(buffer).decode('utf-8')] *)
  b64encode_decode : list byte -> result string;
  (** the [OSError] that [os.remove] raises on a path, if any *)
  os_remove_error : string -> option string;
  (** the failures of the operations on the temporary file *)
  faults : Faults
}.

Definition MODEL_WEIGHTS_PATH (g : Env) : string :=
  Py.os_path_join (BACK_DIR g) ["src"; "detection"; "best.pt"].

Local Open Scope py_scope.

(** The result of a call to a collaborator or a library, in a handler. *)
Definition call {S A} (r : result A) : M S A := fun s => (r, s).

(** ** POST /profile/ *)

(** The keyword arguments the handler passes for a profile (source lines
    123-124). *)
Definition profile_row (profile : Profile) : ProfileRow :=
  {| row_user_id := user_id profile;
     row_name := name profile;
     row_dob := isoformat (dob profile);
     row_height := height profile;
     row_weight := weight profile;
     row_gender := gender profile |}.

Definition save_profile_endpoint (g : Env) (profile : Profile)
  : M World (gmap string string) :=
  match save_profile_to_db g with
  | None => raise (HTTPException 501 "Profile saving feature not available.")
  | Some save =>
      try_except
        (modify (log_call (CallSaveProfileToDb (profile_row profile))) ;;
         call (save (profile_row profile)) ;;
         ret {[ "message" := "Profile saved successfully" ]})
        (fun e => raise (HTTPException 500 "Failed to save profile."))
  end.

(** ** GET /analyze/ *)

(** The pydantic model [AnalysisResponse]. *)
Record AnalysisResponse := {
  correlations : gmap string (gmap string float);
  summary : string
}.

(** [os.path.exists]. *)
Definition os_path_exists (path : string) (w : World) : bool :=
  is_bound (fs w !! path).

Definition db_path (g : Env) : string :=
  Py.os_path_join (BACK_DIR g) [""; "acne_tracker.db"].

Definition analyze_endpoint (g : Env) : M World AnalysisResponse :=
  match analyze_acne_data g with
  | None => raise (HTTPException 501 "Correlation analysis feature not available.")
  | Some analyze =>
      try_except
        (found <- gets (os_path_exists (db_path g)) ;;
         (if negb found
          then raise (FileNotFoundError
                        ("Database file not found at required path: " +:+ db_path g))
          else ret tt) ;;
         modify (log_call (CallAnalyzeAcneData (db_path g))) ;;
         disk <- gets fs ;;
         r <- call (analyze (db_path g) disk) ;;
         ret {| correlations := fst r; summary := snd r |})
        (fun e =>
           match e with
           | FileNotFoundError _ => raise (HTTPException 404 (str_exn e))
           | _ => raise (HTTPException 500
                           ("Failed during correlation analysis: " +:+ str_exn e))
           end)
  end.

(** ** POST /detect *)

Definition allowed_types : list string := ["image/jpeg"; "image/png"; "image/bmp"].

(** [x in l] for a content type that may be [None]. *)
Definition type_in (x : option string) (l : list string) : bool :=
  match x with
  | Some s => existsb (String.eqb s) l
  | None => false
  end.

(** A content type inside an f-string. *)
Definition format_type (x : option string) : string :=
  match x with Some s => s | None => "None" end.

(** The local state of the handler around its [try] statement: the world and
    the variable [temp_image_path]. *)
Record Frame := {
  world : World;
  temp_image_path : option string
}.

Definition on_world (f : World -> World) : M Frame unit :=
  modify (fun s => {| world := f (world s); temp_image_path := temp_image_path s |}).

Definition assign_temp_image_path (path : string) : M Frame unit :=
  modify (fun s => {| world := world s; temp_image_path := Some path |}).

(** A block that starts with [temp_image_path = None]. *)
Definition with_frame {A} (m : M Frame A) : M World A :=
  fun w =>
    match m {| world := w; temp_image_path := None |} with
    | (r, s) => (r, world s)
    end.

(** [tempfile.NamedTemporaryFile(delete=False, suffix=suffix)]: an empty file
    under a new name, which closing does not remove; no file when it
    raises. *)
Definition NamedTemporaryFile (g : Env) (suffix : string) : M Frame string :=
  match tempfile_error (faults g) suffix with
  | Some msg => raise (OSError msg)
  | None =>
      let path := tempfile_stem g +:+ suffix in
      on_world (set_fs (insert path (FileBytes []))) ;;
      ret path
  end.

(** [temp_image_file.write(data)]; a write that raises leaves the file as
    it was. *)
Definition file_write (g : Env) (path : string) (data : list byte) : M Frame unit :=
  match write_error (faults g) path data with
  | Some msg => raise (OSError msg)
  | None => on_world (set_fs (insert path (FileBytes data)))
  end.

(** The close of the file when the [with] block is left. *)
Definition file_close (g : Env) (path : string) : M Frame unit :=
  match close_error (faults g) path with
  | Some msg => raise (OSError msg)
  | None => ret tt
  end.

(** [cv2.imread(path)]: [None] when there is no file or it does not decode. *)
Definition cv2_imread (g : Env) (path : string) (w : World) : option ndarray :=
  match fs w !! path with
  | Some (FileBytes data) => cv2_imdecode g data
  | Some (FileImage img) => Some img
  | None => None
  end.

(** [cv2.resize(img, (width, height))]. *)
Definition cv2_resize (g : Env) (img : ndarray) (dsize : Z * Z) : ndarray :=
  {| rows := snd dsize;
     cols := fst dsize;
     channels := channels img;
     pixels := cv2_interpolate g img (fst dsize) (snd dsize) |}.

(** [cv2.imwrite(path, img)]: raises, or returns [False] and leaves the
    file as it was, or puts the image in the file and returns [True]. *)
Definition cv2_imwrite (g : Env) (path : string) (img : ndarray) : M Frame bool :=
  match cv2_imwrite_error g path with
  | Some msg => raise (Exception msg)
  | None =>
      if imwrite_returns_false (faults g) path
      then ret false
      else on_world (set_fs (insert path (FileImage img))) ;; ret true
  end.

(** [os.remove(path)]. *)
Definition os_remove (g : Env) (path : string) : M Frame unit :=
  match os_remove_error g path with
  | Some msg => raise (OSError msg)
  | None => on_world (set_fs (delete path))
  end.

(** The body of the [try] statement (source lines 197-230). *)
Definition detect_try_body (g : Env)
    (analyze : string -> string -> gmap string disk_file -> result (option AnalysisResults))
    (file : UploadFile) : M Frame (option AnalysisResults) :=
  (* with tempfile.NamedTemporaryFile(...) as temp_image_file: *)
  temp_image_file <- NamedTemporaryFile g (Py.splitext_ext (filename file)) ;;
  try_finally
    ((match content file with
      | [] => raise (HTTPException 400 "Received empty file content.")
      | _ :: _ => ret tt
      end) ;;
     file_write g temp_image_file (content file) ;;
     assign_temp_image_path temp_image_file)
    (file_close g temp_image_file) ;;
  (* 2.1 resize to 640x640; the result of cv2.imwrite is not looked at *)
  img <- gets (fun s => cv2_imread g temp_image_file (world s)) ;;
  match img with
  | None => raise (HTTPException 400 "Could not read the uploaded image.")
  | Some img =>
      let resized_img := cv2_resize g img (640, 640) in
      cv2_imwrite g temp_image_file resized_img ;;
      (* 3. the model file *)
      found <- gets (fun s => os_path_exists (MODEL_WEIGHTS_PATH g) (world s)) ;;
      (if negb found
       then raise (HTTPException 503
                     "Required analysis model file is currently unavailable.")
       else ret tt) ;;
      (* 4. the analysis *)
      disk <- gets (fun s => fs (world s)) ;;
      on_world (log_call (CallAnalyzeSkinImage (MODEL_WEIGHTS_PATH g) temp_image_file
                            (disk !! temp_image_file))) ;;
      call (analyze (MODEL_WEIGHTS_PATH g) temp_image_file disk)
  end.

(** The [except] clauses (source lines 232-240). *)
Definition detect_except {A} (e : exn) : M Frame A :=
  match e with
  | HTTPException _ _ => raise e
  | _ => raise (HTTPException 500 "An error occurred while processing the image.")
  end.

(** The [finally] clause (source lines 241-248). *)
Definition detect_finally (g : Env) : M Frame unit :=
  path <- gets temp_image_path ;;
  match path with
  | Some p =>
      found <- gets (fun s => os_path_exists p (world s)) ;;
      if negb (String.eqb p "") && found
      then try_except (os_remove g p)
             (fun e => match e with OSError _ => ret tt | _ => raise e end)
      else ret tt
  | None => ret tt
  end.

(** Source lines 181-248: the checks, the staging of the upload and the call
    to the analysis; the value is [analysis_results]. *)
Definition detect_analysis (g : Env) (file : UploadFile)
  : M World (option AnalysisResults) :=
  match analyze_skin_image g with
  | None => raise (HTTPException 501 "Detection analysis feature is not available.")
  | Some analyze =>
      if negb (type_in (content_type file) allowed_types)
      then raise (HTTPException 415
                    ("Invalid file type '" +:+ format_type (content_type file)
                     +:+ "'. Please upload JPG, PNG, or BMP."))
      else
        with_frame
          (try_finally
             (try_except (detect_try_body g analyze file) detect_except)
             (detect_finally g))
  end.

(** Source line 251: [not analysis_results or not analysis_results.get('success')]. *)
Definition analysis_failed (analysis_results : option AnalysisResults) : bool :=
  match analysis_results with
  | None => true
  | Some r =>
      negb (dict_bool r)
      || negb (match dict_get (res_success r) with Some b => b | None => false end)
  end.

(** Source line 252. *)
Definition error_message (analysis_results : option AnalysisResults) : string :=
  match analysis_results with
  | Some r =>
      if dict_bool r
      then dict_get_default (res_message r) "Unknown analysis error"
      else "Analysis function returned invalid data"
  | None => "Analysis function returned invalid data"
  end.

(** Source lines 253-255. *)
Definition failure_status (error_message : string) : Z :=
  if Py.str_in "not found" (Py.lower error_message) then 404 else 500.

(** Source lines 260-273: the heatmap as base64 text, or [None]. *)
Definition encode_heatmap (g : Env) (heatmap_data : option pyobject)
  : M World (option string) :=
  match heatmap_data with
  | Some (PyNdarray a) =>
      try_except
        (encoded <- call (cv2_imencode_png g a) ;;
         if fst encoded
         then text <- call (b64encode_decode g (snd encoded)) ;; ret (Some text)
         else ret None)
        (fun _ => ret None)
  | Some (PyOther _) | None => ret None
  end.

(** Source line 257. *)
Definition analysis_error (analysis_results : option AnalysisResults) : exn :=
  HTTPException (failure_status (error_message analysis_results))
    (error_message analysis_results).

(** [DetectionInfo] built from the keys of one entry [det]. *)
Definition DetectionInfo_of (det : DetectionDict) : DetectionInfo :=
  {| class_name := det_class_name det; confidence := det_confidence det |}.

(** Source lines 250-290, on the [analysis_results] of a call. *)
Definition detect_response (g : Env) (analysis_results : option AnalysisResults)
  : M World DetectionResponse :=
  match analysis_results with
  | None => raise (analysis_error analysis_results)
  | Some r =>
      if analysis_failed analysis_results
      then raise (analysis_error analysis_results)
      else
        heatmap_base64 <- encode_heatmap g (dict_get (res_heatmap_overlay_bgr r)) ;;
        ret {| success := true;
               message := dict_get_default (res_message r) "Analysis successful.";
               severity_score := dict_get (res_severity_score r);
               percentage_area := dict_get (res_percentage_area r);
               average_intensity := dict_get (res_average_intensity r);
               lesion_count := dict_get (res_lesion_count r);
               heatmap_image_base64 := heatmap_base64;
               detections :=
                 Some (map DetectionInfo_of (dict_get_default (res_detections r) []));
               model_classes := dict_get (res_model_classes r) |}
  end.

Definition detect_skin_conditions (g : Env) (file : UploadFile)
  : M World DetectionResponse :=
  analysis_results <- detect_analysis g file ;;
  detect_response g analysis_results.

(** ** Names for the states of a [/detect] call *)

(** The path of the temporary file of a call. *)
Definition temp_path (g : Env) (file : UploadFile) : string :=
  tempfile_stem g +:+ Py.splitext_ext (filename file).

(** The world once the upload is written to the temporary file. *)
Definition staged_raw (g : Env) (file : UploadFile) (w : World) : World :=
  set_fs (insert (temp_path g file) (FileBytes (content file))) w.

(** The world after the call of [cv2.imwrite] for the resized image [img]:
    the image is written over the upload, unless [cv2.imwrite] returned
    [False]. *)
Definition staged_resized (g : Env) (file : UploadFile) (img : ndarray) (w : World)
  : World :=
  if imwrite_returns_false (faults g) (temp_path g file)
  then staged_raw g file w
  else set_fs (insert (temp_path g file) (FileImage (cv2_resize g img (640, 640)))) w.

(** The temporary file of a call is created, written and closed without
    error. *)
Definition staged_without_error (g : Env) (file : UploadFile) : Prop :=
  tempfile_error (faults g) (Py.splitext_ext (filename file)) = None
  /\ write_error (faults g) (temp_path g file) (content file) = None
  /\ close_error (faults g) (temp_path g file) = None.

(** The world the [finally] clause leaves when [temp_image_path] is [p]. *)
Definition after_finally (g : Env) (p : string) (w : World) : World :=
  if negb (String.eqb p "") && os_path_exists p w
  then match os_remove_error g p with
       | Some _ => w
       | None => set_fs (delete p) w
       end
  else w.

(** What the [except] clauses make of the result of the [try] body. *)
Definition after_except {A} (r : result A) : result A :=
  match r with
  | Ok a => Ok a
  | Raise (HTTPException status_code detail) =>
      Raise (HTTPException status_code detail)
  | Raise _ =>
      Raise (HTTPException 500 "An error occurred while processing the image.")
  end.

(** The generic error of line 240. *)
Definition processing_error : exn :=
  HTTPException 500 "An error occurred while processing the image.".

(** The [try] statement of [/detect] path by path: its result and the world
    it leaves, for the detection collaborator [analyze]. *)
Definition detect_analysis_paths (g : Env)
    (analyze : string -> string -> gmap string disk_file
               -> result (option AnalysisResults))
    (file : UploadFile) (w : World) : result (option AnalysisResults) * World :=
  let path := temp_path g file in
  let created := set_fs (insert path (FileBytes [])) w in
  match tempfile_error (faults g) (Py.splitext_ext (filename file)) with
  | Some _ => (Raise processing_error, w)
  | None =>
      match content file with
      | [] =>
          (match close_error (faults g) path with
           | Some _ => Raise processing_error
           | None => Raise (HTTPException 400 "Received empty file content.")
           end, created)
      | _ :: _ =>
          match write_error (faults g) path (content file) with
          | Some _ => (Raise processing_error, created)
          | None =>
              match close_error (faults g) path with
              | Some _ =>
                  (Raise processing_error, after_finally g path (staged_raw g file w))
              | None =>
                  match cv2_imdecode g (content file) with
                  | None =>
                      (Raise (HTTPException 400 "Could not read the uploaded image."),
                       after_finally g path (staged_raw g file w))
                  | Some img =>
                      match cv2_imwrite_error g path with
                      | Some _ =>
                          (Raise processing_error,
                           after_finally g path (staged_raw g file w))
                      | None =>
                          let staged := staged_resized g file img w in
                          if os_path_exists (MODEL_WEIGHTS_PATH g) staged
                          then
                            (after_except
                               (analyze (MODEL_WEIGHTS_PATH g) path (fs staged)),
                             after_finally g path
                               (log_call
                                  (CallAnalyzeSkinImage (MODEL_WEIGHTS_PATH g) path
                                     (fs staged !! path))
                                  staged))
                          else
                            (Raise (HTTPException 503
                                      "Required analysis model file is currently unavailable."),
                             after_finally g path staged)
                      end
                  end
              end
          end
      end
  end.

(** ** Concrete calls

    A deployment under [/srv/back] whose [cv2] decodes what starts with the
    PNG signature byte, and the requests used as examples below. *)

Definition ex_image : ndarray :=
  {| rows := 480; cols := 853; channels := 3; pixels := [12; 200; 7] |}.

Definition ex_decode (data : list byte) : option ndarray :=
  match data with
  | x89 :: _ => Some ex_image
  | _ => None
  end.

(** [{'success': True}] *)
Definition ex_results_bare : AnalysisResults :=
  {| res_success := Some true; res_message := None;
     res_severity_score := None; res_percentage_area := None;
     res_average_intensity := None; res_lesion_count := None;
     res_heatmap_overlay_bgr := None; res_detections := None;
     res_model_classes := None |}.

(** [{'success': False, 'message': 'Image file not found'}] *)
Definition ex_results_missing_image : AnalysisResults :=
  {| res_success := Some false; res_message := Some "Image file not found";
     res_severity_score := None; res_percentage_area := None;
     res_average_intensity := None; res_lesion_count := None;
     res_heatmap_overlay_bgr := None; res_detections := None;
     res_model_classes := None |}.

(** [{'success': True, 'message': 'done', 'lesion_count': 2,
      'heatmap_overlay_bgr': <ndarray>}] *)
Definition ex_results_heatmap : AnalysisResults :=
  {| res_success := Some true; res_message := Some "done";
     res_severity_score := None; res_percentage_area := None;
     res_average_intensity := None; res_lesion_count := Some 2;
     res_heatmap_overlay_bgr := Some (PyNdarray ex_image); res_detections := None;
     res_model_classes := None |}.

(** The globals of the example deployment, for a given detection
    collaborator; its PNG encoder raises. *)
Definition ex_env
    (analyze : option (string -> string -> gmap string disk_file
                       -> result (option AnalysisResults))) : Env :=
  {| BACK_DIR := "/srv/back";
     analyze_skin_image := analyze;
     analyze_acne_data := Some (fun _ _ => Ok (∅, "no data"));
     save_profile_to_db := Some (fun row => Raise (Exception "UNIQUE constraint failed"));
     tempfile_stem := "/tmp/tmpk3x9";
     cv2_imdecode := ex_decode;
     cv2_interpolate := fun _ _ _ => [];
     cv2_imwrite_error := fun _ => None;
     cv2_imencode_png := fun _ => Raise (Exception "cv2.error");
     b64encode_decode := fun _ => Ok "";
     os_remove_error := fun _ => None;
     faults := no_faults |}.

Definition ex_returns (r : AnalysisResults)
  : option (string -> string -> gmap string disk_file -> result (option AnalysisResults)) :=
  Some (fun _ _ _ => Ok (Some r)).

(** A disk that holds the model weights and nothing else. *)
Definition ex_world : World :=
  {| fs := {[ "/srv/back/src/detection/best.pt" := FileBytes [x00] ]};
     calls := [] |}.

Definition ex_upload_png : UploadFile :=
  {| filename := "face.png"; content_type := Some "image/png";
     content := [x89; x50; x4e; x47] |}.

Definition ex_upload_empty : UploadFile :=
  {| filename := "face.png"; content_type := Some "image/png"; content := [] |}.

Definition ex_upload_text_empty : UploadFile :=
  {| filename := "notes.txt"; content_type := Some "text/plain"; content := [] |}.

Definition ex_profile : Profile :=
  {| user_id := "user_1"; name := "Ada";
     dob := {| year := 1990; month := 7; day := 4 |};
     height := 170%float; weight := 60%float; gender := None |}.

(** The response to [ex_results_heatmap] when the heatmap does not encode. *)
Definition ex_response_heatmap : DetectionResponse :=
  {| success := true; message := "done";
     severity_score := None; percentage_area := None;
     average_intensity := None; lesion_count := Some 2;
     heatmap_image_base64 := None; detections := Some [];
     model_classes := None |}.

(** The example deployment with a profile store that is out of disk space. *)
Definition ex_env_disk_full : Env :=
  {| BACK_DIR := "/srv/back";
     analyze_skin_image := None;
     analyze_acne_data := None;
     save_profile_to_db := Some (fun row => Raise (OSError "No space left on device"));
     tempfile_stem := "/tmp/tmpk3x9";
     cv2_imdecode := ex_decode;
     cv2_interpolate := fun _ _ _ => [];
     cv2_imwrite_error := fun _ => None;
     cv2_imencode_png := fun _ => Raise (Exception "cv2.error");
     b64encode_decode := fun _ => Ok "";
     os_remove_error := fun _ => None;
     faults := no_faults |}.

(** ** GET /profile/{user_id} and GET / *)

(** Source lines 133-149. [get_profile_from_db] is the binding of that name
    in the module: the lookup of the profile store, which returns the stored
    row of a user or [None]. *)
Definition get_profile_endpoint
    (get_profile_from_db : option (string -> result (option ProfileRow)))
    (uid : string) : M World ProfileRow :=
  match get_profile_from_db with
  | None => raise (HTTPException 501 "Profile fetching feature not available.")
  | Some get =>
      try_except
        (profile_data <- call (get uid) ;;
         match profile_data with
         | Some data => ret data
         | None => raise (HTTPException 404 "Profile not found")
         end)
        (fun e =>
           match e with
           | HTTPException _ _ => raise e
           | _ => raise (HTTPException 500 "Failed to fetch profile.")
           end)
  end.

(** Source lines 294-296. *)
Definition read_root : M World (gmap string string) :=
  ret {[ "message" := "Acne Tracker Analysis API is running." ]}.

(** ** Variations of the globals *)

(** [g] with another behaviour of [os.remove]. *)
Definition with_os_remove_error (g : Env) (f : string -> option string) : Env :=
  {| BACK_DIR := BACK_DIR g;
     analyze_skin_image := analyze_skin_image g;
     analyze_acne_data := analyze_acne_data g;
     save_profile_to_db := save_profile_to_db g;
     tempfile_stem := tempfile_stem g;
     cv2_imdecode := cv2_imdecode g;
     cv2_interpolate := cv2_interpolate g;
     cv2_imwrite_error := cv2_imwrite_error g;
     cv2_imencode_png := cv2_imencode_png g;
     b64encode_decode := b64encode_decode g;
     os_remove_error := f;
     faults := faults g |}.

(** [g] with other encoders for the heatmap. *)
Definition with_heatmap_encoders (g : Env)
    (imencode : ndarray -> result (bool * list byte))
    (b64 : list byte -> result string) : Env :=
  {| BACK_DIR := BACK_DIR g;
     analyze_skin_image := analyze_skin_image g;
     analyze_acne_data := analyze_acne_data g;
     save_profile_to_db := save_profile_to_db g;
     tempfile_stem := tempfile_stem g;
     cv2_imdecode := cv2_imdecode g;
     cv2_interpolate := cv2_interpolate g;
     cv2_imwrite_error := cv2_imwrite_error g;
     cv2_imencode_png := imencode;
     b64encode_decode := b64;
     os_remove_error := os_remove_error g;
     faults := faults g |}.

(** [g] with other bindings for the correlation analysis and the profile
    store. *)
Definition with_services (g : Env)
    (analyze : option (string -> gmap string disk_file
                       -> result (gmap string (gmap string float) * string)))
    (save : option (ProfileRow -> result unit)) : Env :=
  {| BACK_DIR := BACK_DIR g;
     analyze_skin_image := analyze_skin_image g;
     analyze_acne_data := analyze;
     save_profile_to_db := save;
     tempfile_stem := tempfile_stem g;
     cv2_imdecode := cv2_imdecode g;
     cv2_interpolate := cv2_interpolate g;
     cv2_imwrite_error := cv2_imwrite_error g;
     cv2_imencode_png := cv2_imencode_png g;
     b64encode_decode := b64encode_decode g;
     os_remove_error := os_remove_error g;
     faults := faults g |}.

(** ** More concrete calls *)

(** A detection collaborator that raises [e]. *)
Definition ex_raises (e : exn)
  : option (string -> string -> gmap string disk_file
            -> result (option AnalysisResults)) :=
  Some (fun _ _ _ => Raise e).

(** A disk without the model weights. *)
Definition ex_world_no_model : World := {| fs := ∅; calls := [] |}.

(** A disk that holds the model weights and the tracker database. *)
Definition ex_world_db : World :=
  {| fs := {[ "/srv/back/src/detection/best.pt" := FileBytes [x00];
              "/srv/back/acne_tracker.db" := FileBytes [x53; x51] ]};
     calls := [] |}.

(** An upload declared as PNG whose bytes are not an image. *)
Definition ex_upload_garbage : UploadFile :=
  {| filename := "face.png"; content_type := Some "image/png";
     content := [x00; x01] |}.

(** [{'success': True, 'message': 'ok', 'severity_score': 2.5,
      'lesion_count': 2, 'heatmap_overlay_bgr': <ndarray>,
      'detections': [{'class_name': 'papule', 'confidence': 0.5},
                     {'class_name': 'pustule', 'confidence': 0.25}],
      'model_classes': {0: 'papule', 1: 'pustule'}}] *)
Definition ex_results_full : AnalysisResults :=
  {| res_success := Some true; res_message := Some "ok";
     res_severity_score := Some 2.5%float; res_percentage_area := None;
     res_average_intensity := None; res_lesion_count := Some 2;
     res_heatmap_overlay_bgr := Some (PyNdarray ex_image);
     res_detections :=
       Some [ {| det_class_name := "papule"; det_confidence := 0.5%float |};
              {| det_class_name := "pustule"; det_confidence := 0.25%float |} ];
     res_model_classes := Some {[ 0 := "papule"; 1 := "pustule" ]} |}.

(** The dictionary without keys, [{}]. *)
Definition empty_results : AnalysisResults :=
  {| res_success := None; res_message := None;
     res_severity_score := None; res_percentage_area := None;
     res_average_intensity := None; res_lesion_count := None;
     res_heatmap_overlay_bgr := None; res_detections := None;
     res_model_classes := None |}.

Definition ex_row : ProfileRow :=
  {| row_user_id := "user_1"; row_name := "Ada"; row_dob := "1990-07-04";
     row_height := 170%float; row_weight := 60%float; row_gender := None |}.

(** A profile store that knows [user_1] only. *)
Definition ex_get_profile (uid : string) : result (option ProfileRow) :=
  if String.eqb uid "user_1" then Ok (Some ex_row) else Ok None.

(** The example deployment with encoders that work: the PNG of any array is
    the byte 01, whose base64 text is [AQ==]. *)
Definition ex_env_encoding : Env :=
  with_heatmap_encoders (ex_env (ex_returns ex_results_full))
    (fun _ => Ok (true, [x01])) (fun _ => Ok "AQ==").

(** The response to [ex_results_full] with these encoders. *)
Definition ex_response_full : DetectionResponse :=
  {| success := true; message := "ok";
     severity_score := Some 2.5%float; percentage_area := None;
     average_intensity := None; lesion_count := Some 2;
     heatmap_image_base64 := Some "AQ==";
     detections :=
       Some [ {| class_name := "papule"; confidence := 0.5%float |};
              {| class_name := "pustule"; confidence := 0.25%float |} ];
     model_classes := Some {[ 0 := "papule"; 1 := "pustule" ]} |}.

(** ** Reading decimal numerals *)

(** The value of a decimal digit. *)
Definition digit_value (c : ascii) : option Z :=
  let n := N_of_ascii c in
  if ((48 <=? n) && (n <=? 57))%N then Some (Z.of_N (n - 48)) else None.

(** [int(s)] for a string [s] of decimal digits, read after the digits
    already worth [acc]; [None] when a character is not a digit. *)
Fixpoint int_of_digits (acc : Z) (s : string) : option Z :=
  match s with
  | EmptyString => Some acc
  | String c s' =>
      match digit_value c with
      | Some d => int_of_digits (10 * acc + d) s'
      | None => None
      end
  end.

(** The check that [Py.zfill width k] has [width] characters and reads back
    as [k]. *)
Definition zfill_reads_back (width : nat) (k : nat) : bool :=
  (String.length (Py.zfill width (Z.of_nat k)) =? width)%nat
  && bool_decide (int_of_digits 0 (Py.zfill width (Z.of_nat k)) = Some (Z.of_nat k)).

(** The example deployment on a file system where [os.remove] is denied. *)
Definition ex_env_remove_denied : Env :=
  with_os_remove_error (ex_env (ex_returns ex_results_bare))
    (fun _ => Some "[Errno 13] Permission denied").

(** The example deployment with a [cv2] that finds no encoder for a path
    that does not end with ".png". *)
Definition ex_env_png_only : Env :=
  {| BACK_DIR := "/srv/back";
     analyze_skin_image := ex_returns ex_results_bare;
     analyze_acne_data := None;
     save_profile_to_db := None;
     tempfile_stem := "/tmp/tmpk3x9";
     cv2_imdecode := ex_decode;
     cv2_interpolate := fun _ _ _ => [];
     cv2_imwrite_error :=
       fun path => if Py.endswith ".png" path then None
                   else Some "could not find a writer for the specified extension";
     cv2_imencode_png := fun _ => Raise (Exception "cv2.error");
     b64encode_decode := fun _ => Ok "";
     os_remove_error := fun _ => None;
     faults := no_faults |}.

(** A PNG image uploaded under a name without extension. *)
Definition ex_upload_blob : UploadFile :=
  {| filename := "blob"; content_type := Some "image/png";
     content := [x89; x50; x4e; x47] |}.

(** [g] with other failures of the operations on the temporary file. *)
Definition with_faults (g : Env) (f : Faults) : Env :=
  {| BACK_DIR := BACK_DIR g;
     analyze_skin_image := analyze_skin_image g;
     analyze_acne_data := analyze_acne_data g;
     save_profile_to_db := save_profile_to_db g;
     tempfile_stem := tempfile_stem g;
     cv2_imdecode := cv2_imdecode g;
     cv2_interpolate := cv2_interpolate g;
     cv2_imwrite_error := cv2_imwrite_error g;
     cv2_imencode_png := cv2_imencode_png g;
     b64encode_decode := b64encode_decode g;
     os_remove_error := os_remove_error g;
     faults := f |}.

(** A file system whose file names have at most 255 characters: the name
    [tmpk3x9] followed by a longer suffix cannot be created. *)
Definition ex_faults_name_max : Faults :=
  {| tempfile_error :=
       fun suffix => if (255 <? 7 + String.length suffix)%nat
                     then Some "[Errno 36] File name too long"
                     else None;
     write_error := fun _ _ => None;
     close_error := fun _ => None;
     imwrite_returns_false := fun _ => false |}.

Definition ex_env_name_max : Env :=
  with_faults (ex_env (ex_returns ex_results_bare)) ex_faults_name_max.

(** An empty upload whose file name has an extension of 301 characters. *)
Definition ex_upload_long_name : UploadFile :=
  {| filename := "face." +:+ Py.zeros (Z.to_nat 300);
     content_type := Some "image/png"; content := [] |}.

(** A disk on which [cv2.imwrite] cannot write: it returns [False]. *)
Definition ex_faults_imwrite_false : Faults :=
  {| tempfile_error := fun _ => None;
     write_error := fun _ _ => None;
     close_error := fun _ => None;
     imwrite_returns_false := fun _ => true |}.

Definition ex_env_imwrite_false : Env :=
  with_faults (ex_env (ex_returns ex_results_bare)) ex_faults_imwrite_false.



(** * Properties *)

(** ** Substrings *)

Lemma startswith_spec (q p : string) :
  Py.startswith q p = true <-> exists rest, p = q +:+ rest.
Proof.
  revert p. induction q as [|a q IH]; intros p; simpl.
  - split; [intros _; exists p; reflexivity | reflexivity].
  - destruct p as [|b p].
    + split; [discriminate | intros [rest Hrest]; discriminate].
    + rewrite andb_true_iff, IH, Ascii.eqb_eq. split.
      * intros [-> [rest ->]]. exists rest. reflexivity.
      * intros [rest Hrest]. injection Hrest as -> ->. split; [reflexivity | eauto].
Qed.

(** [q in p] holds exactly when [p] is some text, then [q], then some text. *)
Lemma str_in_spec (q p : string) :
  Py.str_in q p = true <-> exists before after, p = before +:+ q +:+ after.
Proof.
  induction p as [|b p IH].
  - simpl. rewrite orb_false_r, startswith_spec. split.
    + intros [rest ->]. exists "", rest. reflexivity.
    + intros [before [after H]]. destruct before as [|c before]; [|discriminate].
      exists after. exact H.
  - cbn [Py.str_in]. rewrite orb_true_iff, startswith_spec, IH. split.
    + intros [[rest ->] | [before [after ->]]].
      * exists "", rest. reflexivity.
      * exists (String b before), after. reflexivity.
    + intros [before [after H]]. destruct before as [|c before].
      * left. exists after. exact H.
      * right. injection H as -> ->. eauto.
Qed.

(** ** The guards of [/detect] *)

Lemma type_in_allowed (x : option string) :
  type_in x allowed_types = true <->
  x = Some "image/jpeg" \/ x = Some "image/png" \/ x = Some "image/bmp".
Proof.
  destruct x as [s|]; simpl.
  - rewrite !orb_true_iff, !String.eqb_eq. split.
    + intros [->|[->|[->|[]%Bool.diff_false_true]]]; auto.
    + intros [H|[H|H]]; injection H as ->; auto.
  - split; [discriminate | intros [H|[H|H]]; discriminate].
Qed.

Lemma detect_unavailable (g : Env) (file : UploadFile) (w : World) :
  analyze_skin_image g = None ->
  detect_skin_conditions g file w =
    (Raise (HTTPException 501 "Detection analysis feature is not available."), w).
Proof.
  intros H. unfold detect_skin_conditions, detect_analysis, bind, raise.
  rewrite H. reflexivity.
Qed.

Lemma detect_rejected_type (g : Env) (file : UploadFile) (w : World) :
  is_bound (analyze_skin_image g) = true ->
  type_in (content_type file) allowed_types = false ->
  detect_skin_conditions g file w =
    (Raise (HTTPException 415
              ("Invalid file type '" +:+ format_type (content_type file)
               +:+ "'. Please upload JPG, PNG, or BMP.")), w).
Proof.
  intros Hg Ht. unfold detect_skin_conditions, detect_analysis, bind, raise.
  destruct (analyze_skin_image g); [|discriminate].
  rewrite Ht. reflexivity.
Qed.

(** ** Running the [try] statement of [/detect] *)

Ltac run :=
  cbv beta iota zeta delta
    [with_frame try_finally try_except detect_try_body detect_except
     NamedTemporaryFile file_write file_close assign_temp_image_path
     cv2_imwrite on_world bind ret raise gets modify call world
     temp_image_path].

Lemma set_fs_insert_insert (p : string) (x y : disk_file) (w : World) :
  set_fs (insert p y) (set_fs (insert p x) w) = set_fs (insert p y) w.
Proof. unfold set_fs. cbn [fs calls]. by rewrite insert_insert_eq. Qed.

Lemma finally_unset (g : Env) (w : World) :
  detect_finally g {| world := w; temp_image_path := None |} =
    (Ok tt, {| world := w; temp_image_path := None |}).
Proof. reflexivity. Qed.

Lemma finally_set (g : Env) (p : string) (w : World) :
  detect_finally g {| world := w; temp_image_path := Some p |} =
    (Ok tt, {| world := after_finally g p w; temp_image_path := Some p |}).
Proof.
  unfold detect_finally, bind, gets, try_except, os_remove, on_world, modify,
    raise, ret. cbn [temp_image_path world]. unfold after_finally.
  destruct (negb (p =? "")%string && os_path_exists p w); [|reflexivity].
  destruct (os_remove_error g p); reflexivity.
Qed.

(** ** The ways through the [try] statement *)

Section DetectAnalysis.
Context (g : Env) (file : UploadFile) (w : World).
Context (analyze : string -> string -> gmap string disk_file
                   -> result (option AnalysisResults)).
Hypothesis available : analyze_skin_image g = Some analyze.
Hypothesis allowed : type_in (content_type file) allowed_types = true.

Lemma detect_analysis_try :
  detect_analysis g file w =
    with_frame
      (try_finally (try_except (detect_try_body g analyze file) detect_except)
         (detect_finally g)) w.
Proof. unfold detect_analysis. rewrite available, allowed. reflexivity. Qed.

(** The handler follows [detect_analysis_paths]. *)
Lemma detect_analysis_paths_eq :
  detect_analysis g file w = detect_analysis_paths g analyze file w.
Proof.
  rewrite detect_analysis_try.
  unfold detect_analysis_paths, staged_resized, staged_raw, processing_error.
  run. fold (temp_path g file).
  destruct (tempfile_error (faults g) (Py.splitext_ext (filename file))).
  { rewrite finally_unset. reflexivity. }
  destruct (content file) as [|b l].
  { destruct (close_error (faults g) (temp_path g file));
      rewrite finally_unset; reflexivity. }
  destruct (write_error (faults g) (temp_path g file) (b :: l)).
  { destruct (close_error (faults g) (temp_path g file));
      rewrite finally_unset; reflexivity. }
  destruct (close_error (faults g) (temp_path g file)).
  { rewrite finally_set, set_fs_insert_insert. reflexivity. }
  unfold cv2_imread. cbn [fs set_fs]. rewrite lookup_insert_eq.
  destruct (cv2_imdecode g (b :: l)) as [img|].
  2: { rewrite finally_set, set_fs_insert_insert. reflexivity. }
  destruct (cv2_imwrite_error g (temp_path g file)).
  { rewrite finally_set, set_fs_insert_insert. reflexivity. }
  destruct (imwrite_returns_false (faults g) (temp_path g file)).
  - rewrite !set_fs_insert_insert.
    destruct (os_path_exists (MODEL_WEIGHTS_PATH g) _).
    + cbn [negb]. destruct (analyze _ _ _) as [a|[]];
        rewrite finally_set; reflexivity.
    + cbn [negb]. rewrite finally_set. reflexivity.
  - rewrite !set_fs_insert_insert.
    destruct (os_path_exists (MODEL_WEIGHTS_PATH g) _).
    + cbn [negb]. destruct (analyze _ _ _) as [a|[]];
        rewrite finally_set; reflexivity.
    + cbn [negb]. rewrite finally_set. reflexivity.
Qed.

Lemma detect_analysis_tempfile_raises (msg : string) :
  tempfile_error (faults g) (Py.splitext_ext (filename file)) = Some msg ->
  detect_analysis g file w = (Raise processing_error, w).
Proof.
  intros Ht. rewrite detect_analysis_paths_eq. unfold detect_analysis_paths.
  by rewrite Ht.
Qed.

Lemma detect_analysis_empty :
  tempfile_error (faults g) (Py.splitext_ext (filename file)) = None ->
  close_error (faults g) (temp_path g file) = None ->
  content file = [] ->
  detect_analysis g file w =
    (Raise (HTTPException 400 "Received empty file content."),
     set_fs (insert (temp_path g file) (FileBytes [])) w).
Proof.
  intros Ht Hcl Hc. rewrite detect_analysis_paths_eq. unfold detect_analysis_paths.
  by rewrite Ht, Hc, Hcl.
Qed.

Lemma detect_analysis_write_raises (msg : string) :
  tempfile_error (faults g) (Py.splitext_ext (filename file)) = None ->
  content file <> [] ->
  write_error (faults g) (temp_path g file) (content file) = Some msg ->
  detect_analysis g file w =
    (Raise processing_error, set_fs (insert (temp_path g file) (FileBytes [])) w).
Proof.
  intros Ht Hc Hw. rewrite detect_analysis_paths_eq. unfold detect_analysis_paths.
  rewrite Ht, Hw. by destruct (content file).
Qed.

Lemma detect_analysis_unreadable :
  staged_without_error g file ->
  content file <> [] ->
  cv2_imdecode g (content file) = None ->
  detect_analysis g file w =
    (Raise (HTTPException 400 "Could not read the uploaded image."),
     after_finally g (temp_path g file) (staged_raw g file w)).
Proof.
  intros (Ht & Hwr & Hcl) Hc Hd.
  rewrite detect_analysis_paths_eq. unfold detect_analysis_paths.
  rewrite Ht, Hwr, Hcl, Hd. by destruct (content file).
Qed.

Lemma detect_analysis_imwrite_raises (img : ndarray) (msg : string) :
  staged_without_error g file ->
  content file <> [] ->
  cv2_imdecode g (content file) = Some img ->
  cv2_imwrite_error g (temp_path g file) = Some msg ->
  detect_analysis g file w =
    (Raise (HTTPException 500 "An error occurred while processing the image."),
     after_finally g (temp_path g file) (staged_raw g file w)).
Proof.
  intros (Ht & Hwr & Hcl) Hc Hd Hw.
  rewrite detect_analysis_paths_eq. unfold detect_analysis_paths.
  rewrite Ht, Hwr, Hcl, Hd, Hw. by destruct (content file).
Qed.

Lemma detect_analysis_no_model (img : ndarray) :
  staged_without_error g file ->
  content file <> [] ->
  cv2_imdecode g (content file) = Some img ->
  cv2_imwrite_error g (temp_path g file) = None ->
  os_path_exists (MODEL_WEIGHTS_PATH g) (staged_resized g file img w) = false ->
  detect_analysis g file w =
    (Raise (HTTPException 503
              "Required analysis model file is currently unavailable."),
     after_finally g (temp_path g file) (staged_resized g file img w)).
Proof.
  intros (Ht & Hwr & Hcl) Hc Hd Hw Hm.
  rewrite detect_analysis_paths_eq. unfold detect_analysis_paths.
  rewrite Ht, Hwr, Hcl, Hd, Hw. cbv zeta. rewrite Hm. by destruct (content file).
Qed.

Lemma detect_analysis_called (img : ndarray) :
  staged_without_error g file ->
  content file <> [] ->
  cv2_imdecode g (content file) = Some img ->
  cv2_imwrite_error g (temp_path g file) = None ->
  os_path_exists (MODEL_WEIGHTS_PATH g) (staged_resized g file img w) = true ->
  detect_analysis g file w =
    (after_except
       (analyze (MODEL_WEIGHTS_PATH g) (temp_path g file)
          (fs (staged_resized g file img w))),
     after_finally g (temp_path g file)
       (log_call
          (CallAnalyzeSkinImage (MODEL_WEIGHTS_PATH g) (temp_path g file)
             (fs (staged_resized g file img w) !! temp_path g file))
          (staged_resized g file img w))).
Proof.
  intros (Ht & Hwr & Hcl) Hc Hd Hw Hm.
  rewrite detect_analysis_paths_eq. unfold detect_analysis_paths.
  rewrite Ht, Hwr, Hcl, Hd, Hw. cbv zeta. rewrite Hm. by destruct (content file).
Qed.

(** Once the upload is written, the [finally] clause runs on the temporary
    path, over a disk that differs from the first one at that path only. *)
Lemma detect_analysis_written :
  tempfile_error (faults g) (Py.splitext_ext (filename file)) = None ->
  content file <> [] ->
  write_error (faults g) (temp_path g file) (content file) = None ->
  exists r w1 x,
    detect_analysis g file w = (r, after_finally g (temp_path g file) w1)
    /\ fs w1 = <[temp_path g file := x]> (fs w).
Proof.
  intros Ht Hc Hwr. rewrite detect_analysis_paths_eq. unfold detect_analysis_paths.
  rewrite Ht, Hwr. destruct (content file) as [|b l]; [done|].
  assert (Hs : forall img, exists x,
             fs (staged_resized g file img w) = <[temp_path g file := x]> (fs w)).
  { intros img. unfold staged_resized.
    destruct (imwrite_returns_false (faults g) (temp_path g file));
      eexists; reflexivity. }
  destruct (close_error (faults g) (temp_path g file)).
  { eexists _, (staged_raw g file w), _. split; reflexivity. }
  destruct (cv2_imdecode g (b :: l)) as [img|].
  2: { eexists _, (staged_raw g file w), _. split; reflexivity. }
  destruct (cv2_imwrite_error g (temp_path g file)).
  { eexists _, (staged_raw g file w), _. split; reflexivity. }
  cbv zeta. destruct (Hs img) as [x Hx].
  destruct (os_path_exists (MODEL_WEIGHTS_PATH g) (staged_resized g file img w)).
  - eexists _, _, x. split; [reflexivity|]. exact Hx.
  - eexists _, _, x. split; [reflexivity|]. exact Hx.
Qed.

End DetectAnalysis.

Lemma calls_after_finally (g : Env) (p : string) (w : World) :
  calls (after_finally g p w) = calls w.
Proof.
  unfold after_finally.
  destruct (negb (p =? "")%string && os_path_exists p w); [|reflexivity].
  destruct (os_remove_error g p); reflexivity.
Qed.

(** When [os.remove] works, the [finally] clause leaves no file at a path
    that it was given. *)
Lemma after_finally_removes (g : Env) (p : string) (w : World) :
  p <> "" ->
  os_remove_error g p = None ->
  fs (after_finally g p w) !! p = None.
Proof.
  intros Hp Hr. unfold after_finally, os_path_exists. rewrite Hr.
  apply String.eqb_neq in Hp. rewrite Hp. cbn [negb andb].
  destruct (fs w !! p) eqn:E; cbn [is_bound fs set_fs].
  - apply lookup_delete_eq.
  - exact E.
Qed.

(** The [finally] clause touches no other path. *)
Lemma after_finally_other (g : Env) (p q : string) (w : World) :
  p <> q ->
  fs (after_finally g p w) !! q = fs w !! q.
Proof.
  intros Hpq. unfold after_finally.
  destruct (negb (p =? "")%string && os_path_exists p w); [|reflexivity].
  destruct (os_remove_error g p); [reflexivity|].
  cbn [fs set_fs]. by apply lookup_delete_ne.
Qed.

(** ** The response step keeps the world *)

Lemma encode_heatmap_world (g : Env) (heatmap_data : option pyobject) (w : World) :
  snd (encode_heatmap g heatmap_data w) = w.
Proof.
  destruct heatmap_data as [[a|repr]|]; try reflexivity.
  cbn [encode_heatmap]. unfold try_except, bind, call, ret.
  destruct (cv2_imencode_png g a) as [[[] buffer]|e]; cbn [fst snd]; try reflexivity.
  destruct (b64encode_decode g buffer); reflexivity.
Qed.

Lemma detect_response_world (g : Env) (a : option AnalysisResults) (w : World) :
  snd (detect_response g a w) = w.
Proof.
  destruct a as [r|]; [|reflexivity].
  cbn [detect_response]. destruct (analysis_failed (Some r)); [reflexivity|].
  unfold bind, ret.
  pose proof (encode_heatmap_world g (dict_get (res_heatmap_overlay_bgr r)) w) as H.
  destruct (encode_heatmap g _ w) as [[h|e] w']; cbn [snd] in *; congruence.
Qed.

Lemma detect_world (g : Env) (file : UploadFile) (w : World) :
  snd (detect_skin_conditions g file w) = snd (detect_analysis g file w).
Proof.
  unfold detect_skin_conditions, bind.
  destruct (detect_analysis g file w) as [[a|e] w1]; cbn [snd]; [|reflexivity].
  apply detect_response_world.
Qed.

Lemma detect_raises (g : Env) (file : UploadFile) (w w1 : World) (e : exn) :
  detect_analysis g file w = (Raise e, w1) ->
  detect_skin_conditions g file w = (Raise e, w1).
Proof. intros H. unfold detect_skin_conditions, bind. rewrite H. reflexivity. Qed.

Lemma detect_returns (g : Env) (file : UploadFile) (w w1 : World)
    (a : option AnalysisResults) :
  detect_analysis g file w = (Ok a, w1) ->
  detect_skin_conditions g file w = detect_response g a w1.
Proof. intros H. unfold detect_skin_conditions, bind. rewrite H. reflexivity. Qed.

(** ** The claims about [/detect] *)

(** On an empty upload of an allowed type the handler answers 400 and the
    temporary file it has just created stays on disk: [temp_image_path] is
    still [None] when the [finally] clause runs. *)
Lemma detect_empty_keeps_temp_file (g : Env) (file : UploadFile) (w : World) :
  is_bound (analyze_skin_image g) = true ->
  type_in (content_type file) allowed_types = true ->
  tempfile_error (faults g) (Py.splitext_ext (filename file)) = None ->
  close_error (faults g) (temp_path g file) = None ->
  content file = [] ->
  detect_skin_conditions g file w =
    (Raise (HTTPException 400 "Received empty file content."),
     set_fs (insert (temp_path g file) (FileBytes [])) w).
Proof.
  intros Hg Ht Hn Hcl Hc.
  destruct (analyze_skin_image g) as [analyze|] eqn:E; [|done].
  apply detect_raises. by apply (detect_analysis_empty g file w analyze).
Qed.

(** C1, at the failing input: the empty PNG upload [ex_upload_empty] on a disk
    without temporary files. The call answers 400 and the temporary file
    [/tmp/tmpk3x9.png] created for it is still on disk afterwards, although
    removing files works. *)
Theorem detect_empty_upload_leaves_temp_file :
  os_remove_error (ex_env (ex_returns ex_results_bare)) "/tmp/tmpk3x9.png" = None /\
  fs ex_world !! "/tmp/tmpk3x9.png" = None /\
  fst (detect_skin_conditions (ex_env (ex_returns ex_results_bare))
         ex_upload_empty ex_world)
    = Raise (HTTPException 400 "Received empty file content.") /\
  fs (snd (detect_skin_conditions (ex_env (ex_returns ex_results_bare))
             ex_upload_empty ex_world)) !! "/tmp/tmpk3x9.png"
    = Some (FileBytes []).
Proof.
  rewrite (detect_empty_keeps_temp_file _ ex_upload_empty ex_world) by reflexivity.
  cbn [fst snd fs set_fs]. split; [reflexivity|]. split; [reflexivity|].
  split; [reflexivity|]. apply lookup_insert_eq.
Qed.

(** X1: once the temporary file has been created and the non-empty upload
    written to it ([temp_image_file.write] returned, so that line 205 bound
    [temp_image_path]), no file is left at the temporary path when the
    handler exits, on every path after that (the file failing to close, an
    unreadable image, [cv2.imwrite] raising or returning [False], a missing
    model file, the analysis returning or raising), provided [os.remove]
    does not fail. *)
Theorem detect_removes_staged_file (g : Env) (file : UploadFile) (w : World) :
  is_bound (analyze_skin_image g) = true ->
  type_in (content_type file) allowed_types = true ->
  tempfile_error (faults g) (Py.splitext_ext (filename file)) = None ->
  content file <> [] ->
  write_error (faults g) (temp_path g file) (content file) = None ->
  temp_path g file <> "" ->
  os_remove_error g (temp_path g file) = None ->
  fs (snd (detect_skin_conditions g file w)) !! temp_path g file = None.
Proof.
  intros Hg Ht Hn Hc Hwr Hp Hr. rewrite detect_world.
  destruct (analyze_skin_image g) as [analyze|] eqn:E; [|done].
  destruct (detect_analysis_written g file w analyze E Ht Hn Hc Hwr)
    as (r & w1 & x & -> & _).
  by apply after_finally_removes.
Qed.

Lemma detect_removes_staged_file_witness :
  fs (snd (detect_skin_conditions (ex_env (ex_returns ex_results_bare))
             ex_upload_png ex_world)) !! "/tmp/tmpk3x9.png" = None.
Proof.
  apply (detect_removes_staged_file (ex_env (ex_returns ex_results_bare))
           ex_upload_png ex_world); first [reflexivity | discriminate].
Defined.

(** C10: when the detection collaborator is unavailable, every upload is
    answered 501 (FeatureUnavailable), whatever its content type and payload,
    so never 415 or 400; nothing is staged and nothing is called. *)
Theorem detect_unavailable_precedes_validation
    (g : Env) (file : UploadFile) (w : World) :
  analyze_skin_image g = None ->
  detect_skin_conditions g file w =
    (Raise (HTTPException 501 "Detection analysis feature is not available."), w)
  /\ http_status (fst (detect_skin_conditions g file w)) = 501
  /\ http_status (fst (detect_skin_conditions g file w)) <> 415
  /\ http_status (fst (detect_skin_conditions g file w)) <> 400.
Proof.
  intros H. rewrite (detect_unavailable g file w H). cbn [fst http_status].
  repeat split; discriminate.
Qed.

Lemma detect_unavailable_precedes_validation_witness :
  type_in (content_type ex_upload_text_empty) allowed_types = false /\
  content ex_upload_text_empty = [] /\
  detect_skin_conditions (ex_env None) ex_upload_text_empty ex_world =
    (Raise (HTTPException 501 "Detection analysis feature is not available."),
     ex_world).
Proof.
  split; [reflexivity|]. split; [reflexivity|].
  apply (detect_unavailable_precedes_validation (ex_env None)
           ex_upload_text_empty ex_world).
  reflexivity.
Defined.

(** C5: with the detection collaborator available, an upload whose declared
    content type is none of image/jpeg, image/png, image/bmp is answered 415
    with a detail that names the type, whatever its bytes; the world is left
    as it was, so no temporary file is created and no later step runs. *)
Theorem detect_rejects_other_types (g : Env) (file : UploadFile) (w : World) :
  is_bound (analyze_skin_image g) = true ->
  content_type file <> Some "image/jpeg" ->
  content_type file <> Some "image/png" ->
  content_type file <> Some "image/bmp" ->
  detect_skin_conditions g file w =
    (Raise (HTTPException 415
              ("Invalid file type '" +:+ format_type (content_type file)
               +:+ "'. Please upload JPG, PNG, or BMP.")), w).
Proof.
  intros Hg H1 H2 H3. apply detect_rejected_type; [exact Hg|].
  apply not_true_is_false. rewrite type_in_allowed. tauto.
Qed.

Lemma detect_rejects_other_types_witness :
  detect_skin_conditions (ex_env (ex_returns ex_results_bare))
    ex_upload_text_empty ex_world =
    (Raise (HTTPException 415
              "Invalid file type 'text/plain'. Please upload JPG, PNG, or BMP."),
     ex_world).
Proof.
  apply (detect_rejects_other_types (ex_env (ex_returns ex_results_bare))
           ex_upload_text_empty ex_world); first [reflexivity | discriminate].
Defined.

(** C6 as stated fails for a file name that the temporary file cannot be
    created for: the empty PNG upload [ex_upload_long_name], whose extension
    has 301 characters, makes [tempfile.NamedTemporaryFile] raise at line 200,
    before the payload is read, and is answered 500, not 400. *)
Lemma detect_empty_upload_name_too_long_counterexample :
  is_bound (analyze_skin_image ex_env_name_max) = true /\
  content_type ex_upload_long_name = Some "image/png" /\
  length (content ex_upload_long_name) = 0%nat /\
  fst (detect_skin_conditions ex_env_name_max ex_upload_long_name ex_world) =
    Raise (HTTPException 500 "An error occurred while processing the image.") /\
  http_status
    (fst (detect_skin_conditions ex_env_name_max ex_upload_long_name ex_world))
    <> 400.
Proof.
  rewrite (detect_raises ex_env_name_max ex_upload_long_name ex_world ex_world
             processing_error).
  - cbn [fst http_status processing_error]. repeat split. discriminate.
  - eapply detect_analysis_tempfile_raises; reflexivity.
Qed.

(** C6, amended: with the detection collaborator bound, an upload of an
    allowed content type whose payload has length zero is answered 400 when
    the temporary file for its name can be created and closed, and 500
    otherwise; in both cases the detection collaborator is not called. *)
Theorem detect_empty_upload_bad_request (g : Env) (file : UploadFile) (w : World) :
  is_bound (analyze_skin_image g) = true ->
  content_type file = Some "image/jpeg" \/ content_type file = Some "image/png"
    \/ content_type file = Some "image/bmp" ->
  length (content file) = 0%nat ->
  (tempfile_error (faults g) (Py.splitext_ext (filename file)) = None ->
   close_error (faults g) (temp_path g file) = None ->
   fst (detect_skin_conditions g file w) =
     Raise (HTTPException 400 "Received empty file content."))
  /\ (tempfile_error (faults g) (Py.splitext_ext (filename file)) <> None
      \/ close_error (faults g) (temp_path g file) <> None ->
      fst (detect_skin_conditions g file w) =
        Raise (HTTPException 500 "An error occurred while processing the image."))
  /\ calls (snd (detect_skin_conditions g file w)) = calls w.
Proof.
  intros Hg Ht Hc. apply type_in_allowed in Ht. apply length_zero_iff_nil in Hc.
  destruct (analyze_skin_image g) as [analyze|] eqn:E; [|done].
  pose proof (detect_analysis_paths_eq g file w analyze E Ht) as Hp.
  unfold detect_analysis_paths in Hp. rewrite Hc in Hp.
  destruct (tempfile_error (faults g) (Py.splitext_ext (filename file))) as [m|].
  { rewrite (detect_raises _ _ _ _ _ Hp). cbn [fst snd].
    split; [done|]. split; [reflexivity|reflexivity]. }
  destruct (close_error (faults g) (temp_path g file)) as [m|].
  { rewrite (detect_raises _ _ _ _ _ Hp). cbn [fst snd].
    split; [done|]. split; reflexivity. }
  rewrite (detect_raises _ _ _ _ _ Hp). cbn [fst snd].
  split; [reflexivity|]. split; [|reflexivity]. by intros [|].
Qed.

Lemma detect_empty_upload_bad_request_witness :
  fst (detect_skin_conditions (ex_env (ex_returns ex_results_bare))
         ex_upload_empty ex_world) =
    Raise (HTTPException 400 "Received empty file content.")
  /\ calls (snd (detect_skin_conditions (ex_env (ex_returns ex_results_bare))
                   ex_upload_empty ex_world)) = calls ex_world.
Proof.
  destruct (detect_empty_upload_bad_request (ex_env (ex_returns ex_results_bare))
              ex_upload_empty ex_world) as (H400 & _ & Hcalls).
  - reflexivity.
  - right. left. reflexivity.
  - reflexivity.
  - split; [apply H400; reflexivity | exact Hcalls].
Defined.

Lemma calls_staged_resized (g : Env) (file : UploadFile) (img : ndarray) (w : World) :
  calls (staged_resized g file img w) = calls w.
Proof.
  unfold staged_resized.
  by destruct (imwrite_returns_false (faults g) (temp_path g file)).
Qed.

Lemma model_exists_staged (g : Env) (file : UploadFile) (img : ndarray) (w : World) :
  os_path_exists (MODEL_WEIGHTS_PATH g) w = true ->
  os_path_exists (MODEL_WEIGHTS_PATH g) (staged_resized g file img w) = true.
Proof.
  unfold os_path_exists, staged_resized, staged_raw. intros H.
  destruct (imwrite_returns_false (faults g) (temp_path g file)); cbn [fs set_fs];
    (destruct (decide (temp_path g file = MODEL_WEIGHTS_PATH g)) as [->|Hne];
     [by rewrite lookup_insert_eq | by rewrite lookup_insert_ne]).
Qed.

(** C7, at the failing input: the PNG upload [ex_upload_png], which decodes
    to an image 853 wide and 480 high, on a disk where [cv2.imwrite] writes
    nothing and returns [False]. Line 213 does not look at that result: the
    handler goes on, calls the detection collaborator on the temporary path
    while the file there still holds the uploaded bytes, which decode to the
    image of 853 by 480, not to one of 640 by 640, and answers with a
    successful response. *)
Theorem detect_collaborator_receives_unresized_image :
  cv2_imdecode ex_env_imwrite_false (content ex_upload_png) = Some ex_image
  /\ (cols ex_image, rows ex_image) = (853, 480)
  /\ imwrite_returns_false (faults ex_env_imwrite_false) "/tmp/tmpk3x9.png" = true
  /\ calls (snd (detect_skin_conditions ex_env_imwrite_false ex_upload_png ex_world)) =
       [CallAnalyzeSkinImage "/srv/back/src/detection/best.pt" "/tmp/tmpk3x9.png"
          (Some (FileBytes (content ex_upload_png)))]
  /\ (exists response,
        fst (detect_skin_conditions ex_env_imwrite_false ex_upload_png ex_world)
          = Ok response
        /\ success response = true).
Proof.
  split; [reflexivity|]. split; [reflexivity|]. split; [reflexivity|].
  assert (Ha : detect_analysis ex_env_imwrite_false ex_upload_png ex_world =
               (Ok (Some ex_results_bare),
                after_finally ex_env_imwrite_false "/tmp/tmpk3x9.png"
                  (log_call
                     (CallAnalyzeSkinImage "/srv/back/src/detection/best.pt"
                        "/tmp/tmpk3x9.png"
                        (Some (FileBytes (content ex_upload_png))))
                     (staged_raw ex_env_imwrite_false ex_upload_png ex_world)))).
  { rewrite (detect_analysis_paths_eq ex_env_imwrite_false ex_upload_png ex_world
               (fun _ _ _ => Ok (Some ex_results_bare)) eq_refl eq_refl).
    reflexivity. }
  split.
  - rewrite detect_world, Ha. cbn [snd]. rewrite calls_after_finally. reflexivity.
  - rewrite (detect_returns _ _ _ _ _ Ha). eexists. split; reflexivity.
Qed.



(** ** The claims about the response of [/detect] *)

Lemma detect_result (g : Env) (file : UploadFile) (w : World)
    (a : option AnalysisResults) :
  fst (detect_analysis g file w) = Ok a ->
  detect_skin_conditions g file w = detect_response g a (snd (detect_analysis g file w)).
Proof.
  intros H. apply detect_returns.
  destruct (detect_analysis g file w) as [r w1]. cbn [fst snd] in *. by subst r.
Qed.

Lemma analysis_failed_iff (a : option AnalysisResults) :
  analysis_failed a = true <-> forall r, a = Some r -> res_success r <> Some true.
Proof.
  destruct a as [r|]; cbn [analysis_failed].
  - unfold dict_bool, dict_get.
    destruct (res_success r) as [[]|] eqn:E; cbn [is_bound orb negb].
    + split; [discriminate | intros H; by destruct (H r eq_refl)].
    + rewrite ?orb_true_r. split; [intros _ r' [= <-]; congruence | done].
    + rewrite ?orb_true_r. split; [intros _ r' [= <-]; congruence | done].
  - split; [intros _ r; discriminate | done].
Qed.

(** C2 as stated fails for a failure message that mentions "not found"
    without being "model not found": the collaborator reports failure with
    the message "Image file not found" and the answer is 404, not 500. *)
Lemma detect_not_found_message_counterexample :
  fst (detect_analysis (ex_env (ex_returns ex_results_missing_image))
         ex_upload_png ex_world) = Ok (Some ex_results_missing_image) /\
  res_success ex_results_missing_image = Some false /\
  res_message ex_results_missing_image = Some "Image file not found" /\
  "Image file not found" <> "model not found" /\
  fst (detect_skin_conditions (ex_env (ex_returns ex_results_missing_image))
         ex_upload_png ex_world) =
    Raise (HTTPException 404 "Image file not found").
Proof.
  split; [vm_compute; reflexivity|]. split; [reflexivity|]. split; [reflexivity|].
  split; [discriminate|]. vm_compute. reflexivity.
Qed.

(** C2, amended: when the detection collaborator reports failure (its success
    flag is missing or false) or returns no result, the handler raises an
    error response whose detail is the failure message and whose status is
    404 exactly when the failure message, in lower case, contains
    "not found", and 500 for any other failure message. The failure message
    is the collaborator's message when it gives one; "model not found" is
    one of those answered 404. *)
Theorem detect_failure_status
    (g : Env) (file : UploadFile) (w : World) (a : option AnalysisResults) :
  fst (detect_analysis g file w) = Ok a ->
  (forall r, a = Some r -> res_success r <> Some true) ->
  exists status msg,
    detect_skin_conditions g file w =
      (Raise (HTTPException status msg), snd (detect_analysis g file w))
    /\ msg = error_message a
    /\ (forall r m, a = Some r -> res_message r = Some m -> msg = m)
    /\ ((exists before after, Py.lower msg = before +:+ "not found" +:+ after)
        -> status = 404)
    /\ (~ (exists before after, Py.lower msg = before +:+ "not found" +:+ after)
        -> status = 500)
    /\ (msg = "model not found" -> status = 404).
Proof.
  intros Ha Hfail. apply analysis_failed_iff in Hfail.
  exists (failure_status (error_message a)), (error_message a).
  split.
  { rewrite (detect_result g file w a Ha).
    destruct a as [r|]; cbn [detect_response]; [rewrite Hfail|]; reflexivity. }
  split; [reflexivity|]. split.
  { intros r m -> Hm. cbn [error_message]. unfold dict_bool. rewrite Hm.
    cbn [is_bound]. rewrite orb_true_r. reflexivity. }
  unfold failure_status. rewrite <- str_in_spec.
  destruct (Py.str_in "not found" (Py.lower (error_message a))) eqn:E.
  - split; [done|]. split; [done|]. done.
  - split; [done|]. split; [done|]. intros Hm. rewrite Hm in E. discriminate E.
Qed.

Lemma detect_failure_status_witness :
  exists status msg,
    detect_skin_conditions (ex_env (ex_returns ex_results_missing_image))
      ex_upload_png ex_world =
      (Raise (HTTPException status msg),
       snd (detect_analysis (ex_env (ex_returns ex_results_missing_image))
              ex_upload_png ex_world))
    /\ msg = error_message (Some ex_results_missing_image)
    /\ (forall r m, Some ex_results_missing_image = Some r ->
                    res_message r = Some m -> msg = m)
    /\ ((exists before after, Py.lower msg = before +:+ "not found" +:+ after)
        -> status = 404)
    /\ (~ (exists before after, Py.lower msg = before +:+ "not found" +:+ after)
        -> status = 500)
    /\ (msg = "model not found" -> status = 404).
Proof.
  apply (detect_failure_status (ex_env (ex_returns ex_results_missing_image))
           ex_upload_png ex_world (Some ex_results_missing_image)).
  - vm_compute. reflexivity.
  - intros r [= <-]. discriminate.
Defined.

Lemma encode_heatmap_absent (g : Env) (w : World) :
  encode_heatmap g None w = (Ok None, w).
Proof. reflexivity. Qed.

(** The response of a call whose analysis succeeded. *)
Lemma detect_response_ok (g : Env) (r : AnalysisResults) (w : World)
    (resp : DetectionResponse) :
  fst (detect_response g (Some r) w) = Ok resp ->
  exists heatmap_base64,
    fst (encode_heatmap g (dict_get (res_heatmap_overlay_bgr r)) w) = Ok heatmap_base64
    /\ resp =
       {| success := true;
          message := dict_get_default (res_message r) "Analysis successful.";
          severity_score := res_severity_score r;
          percentage_area := res_percentage_area r;
          average_intensity := res_average_intensity r;
          lesion_count := res_lesion_count r;
          heatmap_image_base64 := heatmap_base64;
          detections :=
            Some (map DetectionInfo_of (dict_get_default (res_detections r) []));
          model_classes := res_model_classes r |}.
Proof.
  cbn [detect_response]. destruct (analysis_failed (Some r)); [discriminate|].
  unfold bind, ret, dict_get.
  destruct (encode_heatmap g (res_heatmap_overlay_bgr r) w) as [[h|e] w'];
    cbn [fst]; [|discriminate].
  intros [= <-]. exists h. split; reflexivity.
Qed.

(** C3 as stated fails for [detections]: the collaborator returns
    [{'success': True}], without the key ['detections'], and the response
    carries an empty list of detections, not an absent field. *)
Lemma detect_detections_counterexample :
  fst (detect_analysis (ex_env (ex_returns ex_results_bare)) ex_upload_png ex_world)
    = Ok (Some ex_results_bare) /\
  res_detections ex_results_bare = None /\
  exists resp,
    fst (detect_skin_conditions (ex_env (ex_returns ex_results_bare))
           ex_upload_png ex_world) = Ok resp
    /\ detections resp = Some []
    /\ detections resp <> None.
Proof.
  split; [vm_compute; reflexivity|]. split; [reflexivity|].
  eexists. split; [vm_compute; reflexivity|]. split; [reflexivity | discriminate].
Qed.

(** C3, amended: in every successful response, each of [severity_score],
    [percentage_area], [average_intensity], [lesion_count],
    [heatmap_image_base64] and [model_classes] is absent whenever the
    collaborator omits the corresponding value from its result; [detections]
    is then the empty list. *)
Theorem detect_omitted_fields
    (g : Env) (file : UploadFile) (w : World) (r : AnalysisResults)
    (resp : DetectionResponse) :
  fst (detect_analysis g file w) = Ok (Some r) ->
  fst (detect_skin_conditions g file w) = Ok resp ->
  (res_severity_score r = None -> severity_score resp = None)
  /\ (res_percentage_area r = None -> percentage_area resp = None)
  /\ (res_average_intensity r = None -> average_intensity resp = None)
  /\ (res_lesion_count r = None -> lesion_count resp = None)
  /\ (res_heatmap_overlay_bgr r = None -> heatmap_image_base64 resp = None)
  /\ (res_model_classes r = None -> model_classes resp = None)
  /\ (res_detections r = None -> detections resp = Some []).
Proof.
  intros Ha Hresp. rewrite (detect_result g file w _ Ha) in Hresp.
  apply detect_response_ok in Hresp as [h [Hh ->]]. cbn.
  repeat split; try done.
  - intros Hnone. unfold dict_get in Hh. rewrite Hnone in Hh.
    rewrite encode_heatmap_absent in Hh. by injection Hh as <-.
  - by intros ->.
Qed.

Lemma detect_omitted_fields_witness :
  (res_severity_score ex_results_heatmap = None
   -> severity_score ex_response_heatmap = None)
  /\ (res_percentage_area ex_results_heatmap = None
      -> percentage_area ex_response_heatmap = None)
  /\ (res_average_intensity ex_results_heatmap = None
      -> average_intensity ex_response_heatmap = None)
  /\ (res_lesion_count ex_results_heatmap = None
      -> lesion_count ex_response_heatmap = None)
  /\ (res_heatmap_overlay_bgr ex_results_heatmap = None
      -> heatmap_image_base64 ex_response_heatmap = None)
  /\ (res_model_classes ex_results_heatmap = None
      -> model_classes ex_response_heatmap = None)
  /\ (res_detections ex_results_heatmap = None
      -> detections ex_response_heatmap = Some []).
Proof.
  apply (detect_omitted_fields (ex_env (ex_returns ex_results_heatmap))
           ex_upload_png ex_world ex_results_heatmap ex_response_heatmap).
  - vm_compute. reflexivity.
  - vm_compute. reflexivity.
Defined.

(** C4: when the collaborator succeeds and returns a heatmap buffer whose
    PNG encoding fails (it raises or reports no success) or whose base64
    encoding raises, the handler still returns a response, with [success]
    true and [heatmap_image_base64] absent. *)
Theorem detect_heatmap_failure_is_not_fatal
    (g : Env) (file : UploadFile) (w : World) (r : AnalysisResults) (a : ndarray) :
  fst (detect_analysis g file w) = Ok (Some r) ->
  res_success r = Some true ->
  res_heatmap_overlay_bgr r = Some (PyNdarray a) ->
  (exists e, cv2_imencode_png g a = Raise e)
  \/ (exists buffer, cv2_imencode_png g a = Ok (false, buffer))
  \/ (exists buffer e, cv2_imencode_png g a = Ok (true, buffer)
                       /\ b64encode_decode g buffer = Raise e) ->
  exists resp,
    fst (detect_skin_conditions g file w) = Ok resp
    /\ success resp = true
    /\ heatmap_image_base64 resp = None.
Proof.
  intros Ha Hs Hh Henc. rewrite (detect_result g file w _ Ha).
  cbn [detect_response analysis_failed]. unfold dict_bool, dict_get.
  rewrite Hs, Hh. cbn [is_bound orb negb].
  cbn [encode_heatmap]. unfold try_except, bind, call, ret.
  destruct Henc as [[e ->] | [[buffer ->] | [buffer [e [-> Hb]]]]]; cbn [fst snd].
  - eexists. repeat split.
  - eexists. repeat split.
  - rewrite Hb. eexists. repeat split.
Qed.

Lemma detect_heatmap_failure_is_not_fatal_witness :
  exists resp,
    fst (detect_skin_conditions (ex_env (ex_returns ex_results_heatmap))
           ex_upload_png ex_world) = Ok resp
    /\ success resp = true
    /\ heatmap_image_base64 resp = None.
Proof.
  apply (detect_heatmap_failure_is_not_fatal (ex_env (ex_returns ex_results_heatmap))
           ex_upload_png ex_world ex_results_heatmap ex_image).
  - vm_compute. reflexivity.
  - reflexivity.
  - reflexivity.
  - left. exists (Exception "cv2.error"). reflexivity.
Defined.

(** ** The claims about [/analyze/] and [/profile/] *)

Lemma append_empty_r (s : string) : s +:+ "" = s.
Proof.
  induction s as [|c s IH]; [reflexivity|].
  change (String c (s +:+ "") = String c s). by f_equal.
Qed.

(** C8: with the correlation collaborator available, when nothing exists at
    the data-source path the handler raises 404 with a detail in which that
    path occurs, and the world is as before: the collaborator is not called. *)
Theorem analyze_missing_database (g : Env) (w : World) :
  is_bound (analyze_acne_data g) = true ->
  os_path_exists (db_path g) w = false ->
  exists detail,
    analyze_endpoint g w = (Raise (HTTPException 404 detail), w)
    /\ detail = "Database file not found at required path: " +:+ db_path g
    /\ Py.str_in (db_path g) detail = true
    /\ calls (snd (analyze_endpoint g w)) = calls w.
Proof.
  intros Hg Hdb. eexists. split; [|split; [reflexivity|]].
  - unfold analyze_endpoint. destruct (analyze_acne_data g); [|discriminate].
    unfold try_except, bind, gets. rewrite Hdb. reflexivity.
  - split.
    + apply str_in_spec.
      exists "Database file not found at required path: ", "".
      by rewrite append_empty_r.
    + unfold analyze_endpoint. destruct (analyze_acne_data g); [|discriminate].
      unfold try_except, bind, gets. rewrite Hdb. reflexivity.
Qed.

Lemma analyze_missing_database_witness :
  exists detail,
    analyze_endpoint (ex_env None) ex_world =
      (Raise (HTTPException 404 detail), ex_world)
    /\ detail = "Database file not found at required path: "
                +:+ db_path (ex_env None)
    /\ Py.str_in (db_path (ex_env None)) detail = true
    /\ calls (snd (analyze_endpoint (ex_env None) ex_world)) = calls ex_world.
Proof.
  apply (analyze_missing_database (ex_env None) ex_world); reflexivity.
Defined.

(** C9: whenever the profile store raises, the handler answers 500 with
    the fixed detail "Failed to save profile."; two calls in which the store
    raises any two exceptions get the same answer. *)
Theorem save_profile_failure_is_generic
    (g1 g2 : Env) (profile1 profile2 : Profile) (w1 w2 : World)
    (save1 save2 : ProfileRow -> result unit) (e1 e2 : exn) :
  save_profile_to_db g1 = Some save1 ->
  save_profile_to_db g2 = Some save2 ->
  save1 (profile_row profile1) = Raise e1 ->
  save2 (profile_row profile2) = Raise e2 ->
  fst (save_profile_endpoint g1 profile1 w1) =
    Raise (HTTPException 500 "Failed to save profile.")
  /\ fst (save_profile_endpoint g1 profile1 w1) =
     fst (save_profile_endpoint g2 profile2 w2).
Proof.
  intros Hg1 Hg2 H1 H2. unfold save_profile_endpoint.
  rewrite Hg1, Hg2. unfold try_except, bind, modify, call, raise.
  rewrite H1, H2. split; reflexivity.
Qed.

Lemma save_profile_failure_is_generic_witness :
  fst (save_profile_endpoint (ex_env None) ex_profile ex_world) =
    Raise (HTTPException 500 "Failed to save profile.")
  /\ fst (save_profile_endpoint (ex_env None) ex_profile ex_world) =
     fst (save_profile_endpoint ex_env_disk_full ex_profile ex_world).
Proof.
  apply (save_profile_failure_is_generic (ex_env None) ex_env_disk_full
           ex_profile ex_profile ex_world ex_world
           (fun _ => Raise (Exception "UNIQUE constraint failed"))
           (fun _ => Raise (OSError "No space left on device"))
           (Exception "UNIQUE constraint failed")
           (OSError "No space left on device")); reflexivity.
Defined.

(** * Further properties of the handlers *)

(** ** Results of [/detect], whatever the clean-up does *)

Lemma detect_finally_returns (g : Env) (s : Frame) :
  fst (detect_finally g s) = Ok tt.
Proof.
  destruct s as [w [p|]]; [|reflexivity]. by rewrite finally_set.
Qed.

Lemma detect_response_result (g : Env) (a : option AnalysisResults) (w1 w2 : World) :
  fst (detect_response g a w1) = fst (detect_response g a w2).
Proof.
  destruct a as [r|]; [|reflexivity].
  cbn [detect_response]. destruct (analysis_failed (Some r)); [reflexivity|].
  unfold bind, ret.
  destruct (dict_get (res_heatmap_overlay_bgr r)) as [[a|repr]|]; try reflexivity.
  cbn [encode_heatmap]. unfold try_except, bind, call, ret.
  destruct (cv2_imencode_png g a) as [[[] buffer]|e]; cbn [fst snd]; try reflexivity.
  destruct (b64encode_decode g buffer); reflexivity.
Qed.

Lemma detect_result_of_analysis (g : Env) (file : UploadFile) (w : World) :
  fst (detect_skin_conditions g file w) =
    match fst (detect_analysis g file w) with
    | Ok a => fst (detect_response g a w)
    | Raise e => Raise e
    end.
Proof.
  unfold detect_skin_conditions, bind.
  destruct (detect_analysis g file w) as [[a|e] w1]; cbn [fst]; [|reflexivity].
  apply detect_response_result.
Qed.

(** The result of the [try] statement is that of its body and [except]
    clauses: the [finally] clause never changes it. *)
Lemma detect_analysis_result (g : Env) (file : UploadFile) (w : World)
    (analyze : string -> string -> gmap string disk_file
               -> result (option AnalysisResults)) :
  analyze_skin_image g = Some analyze ->
  type_in (content_type file) allowed_types = true ->
  fst (detect_analysis g file w) =
    fst (try_except (detect_try_body g analyze file) detect_except
           {| world := w; temp_image_path := None |}).
Proof.
  intros Hg Ht. rewrite (detect_analysis_try g file w analyze Hg Ht).
  unfold with_frame, try_finally.
  destruct (try_except _ _ _) as [r s].
  pose proof (detect_finally_returns g s) as Hf.
  destruct (detect_finally g s) as [[[]|e] s']; cbn [fst] in *; [reflexivity|discriminate].
Qed.

(** X2: a failure of [os.remove] in the clean-up is never escalated: the
    answer of [/detect] (response or error) is the same whatever [os.remove]
    does. *)
Theorem detect_cleanup_failure_is_silent
    (g : Env) (f : string -> option string) (file : UploadFile) (w : World) :
  fst (detect_skin_conditions (with_os_remove_error g f) file w) =
    fst (detect_skin_conditions g file w).
Proof.
  rewrite !detect_result_of_analysis.
  assert (Ha : fst (detect_analysis (with_os_remove_error g f) file w) =
               fst (detect_analysis g file w)).
  { destruct (analyze_skin_image g) as [analyze|] eqn:Hg.
    2: { unfold detect_analysis. cbn [analyze_skin_image with_os_remove_error].
         rewrite Hg. reflexivity. }
    destruct (type_in (content_type file) allowed_types) eqn:Ht.
    2: { unfold detect_analysis. cbn [analyze_skin_image with_os_remove_error].
         rewrite Hg, Ht. reflexivity. }
    rewrite (detect_analysis_result g file w analyze Hg Ht).
    rewrite (detect_analysis_result (with_os_remove_error g f) file w analyze Hg Ht).
    reflexivity. }
  rewrite Ha. destruct (fst (detect_analysis g file w)); reflexivity.
Qed.

(** ** The error paths of [/detect] after staging *)

Lemma model_missing_staged (g : Env) (file : UploadFile) (img : ndarray) (w : World) :
  os_path_exists (MODEL_WEIGHTS_PATH g) w = false ->
  temp_path g file <> MODEL_WEIGHTS_PATH g ->
  os_path_exists (MODEL_WEIGHTS_PATH g) (staged_resized g file img w) = false.
Proof.
  unfold os_path_exists, staged_resized, staged_raw. intros H Hne.
  destruct (imwrite_returns_false (faults g) (temp_path g file)); cbn [fs set_fs];
    by rewrite lookup_insert_ne.
Qed.

(** X3: when the model weights are not on disk at the time of the call, an
    upload that passes the guards, is staged without error and decodes is
    answered 503 and the detection collaborator is not called, although the
    image has been staged and resized by then. *)
Theorem detect_model_file_missing
    (g : Env) (file : UploadFile) (w : World) (img : ndarray) :
  is_bound (analyze_skin_image g) = true ->
  type_in (content_type file) allowed_types = true ->
  staged_without_error g file ->
  content file <> [] ->
  cv2_imdecode g (content file) = Some img ->
  cv2_imwrite_error g (temp_path g file) = None ->
  os_path_exists (MODEL_WEIGHTS_PATH g) w = false ->
  temp_path g file <> MODEL_WEIGHTS_PATH g ->
  fst (detect_skin_conditions g file w) =
    Raise (HTTPException 503
             "Required analysis model file is currently unavailable.")
  /\ calls (snd (detect_skin_conditions g file w)) = calls w.
Proof.
  intros Hg Ht Hs Hc Hd Hw Hm Hne.
  destruct (analyze_skin_image g) as [analyze|] eqn:E; [|done].
  pose proof (model_missing_staged g file img w Hm Hne) as Hm'.
  pose proof (detect_analysis_no_model g file w analyze E Ht img Hs Hc Hd Hw Hm') as Ha.
  rewrite (detect_raises g file w _ _ Ha). cbn [fst snd].
  split; [reflexivity|]. by rewrite calls_after_finally, calls_staged_resized.
Qed.

Lemma detect_model_file_missing_witness :
  fst (detect_skin_conditions (ex_env (ex_returns ex_results_bare))
         ex_upload_png ex_world_no_model) =
    Raise (HTTPException 503
             "Required analysis model file is currently unavailable.")
  /\ calls (snd (detect_skin_conditions (ex_env (ex_returns ex_results_bare))
                   ex_upload_png ex_world_no_model)) = calls ex_world_no_model.
Proof.
  apply (detect_model_file_missing (ex_env (ex_returns ex_results_bare))
           ex_upload_png ex_world_no_model ex_image);
    first [reflexivity | discriminate | (repeat split; reflexivity)].
Defined.

(** X4: an upload of an allowed type whose bytes are not empty but do not
    decode as an image is answered 400 "Could not read the uploaded image."
    when the temporary file for its name has been created, written and
    closed without error; the detection collaborator is not called. *)
Theorem detect_unreadable_image (g : Env) (file : UploadFile) (w : World) :
  is_bound (analyze_skin_image g) = true ->
  type_in (content_type file) allowed_types = true ->
  staged_without_error g file ->
  content file <> [] ->
  cv2_imdecode g (content file) = None ->
  fst (detect_skin_conditions g file w) =
    Raise (HTTPException 400 "Could not read the uploaded image.")
  /\ calls (snd (detect_skin_conditions g file w)) = calls w.
Proof.
  intros Hg Ht Hs Hc Hd.
  destruct (analyze_skin_image g) as [analyze|] eqn:E; [|done].
  pose proof (detect_analysis_unreadable g file w analyze E Ht Hs Hc Hd) as Ha.
  rewrite (detect_raises g file w _ _ Ha). cbn [fst snd].
  split; [reflexivity|]. by rewrite calls_after_finally.
Qed.

Lemma detect_unreadable_image_witness :
  fst (detect_skin_conditions (ex_env (ex_returns ex_results_bare))
         ex_upload_garbage ex_world) =
    Raise (HTTPException 400 "Could not read the uploaded image.")
  /\ calls (snd (detect_skin_conditions (ex_env (ex_returns ex_results_bare))
                   ex_upload_garbage ex_world)) = calls ex_world.
Proof.
  apply (detect_unreadable_image (ex_env (ex_returns ex_results_bare))
           ex_upload_garbage ex_world);
    first [reflexivity | discriminate | (repeat split; reflexivity)].
Defined.

(** The result of a call that reaches the detection collaborator. *)
Lemma detect_analysis_called_result
    (g : Env) (file : UploadFile) (w : World) (img : ndarray)
    (analyze : string -> string -> gmap string disk_file
               -> result (option AnalysisResults)) :
  analyze_skin_image g = Some analyze ->
  type_in (content_type file) allowed_types = true ->
  staged_without_error g file ->
  content file <> [] ->
  cv2_imdecode g (content file) = Some img ->
  cv2_imwrite_error g (temp_path g file) = None ->
  os_path_exists (MODEL_WEIGHTS_PATH g) w = true ->
  fst (detect_analysis g file w) =
    after_except (analyze (MODEL_WEIGHTS_PATH g) (temp_path g file)
                    (fs (staged_resized g file img w))).
Proof.
  intros Hg Ht Hs Hc Hd Hw Hm.
  apply (model_exists_staged g file img) in Hm.
  by rewrite (detect_analysis_called g file w analyze Hg Ht img Hs Hc Hd Hw Hm).
Qed.

(** X5: when the detection collaborator raises an exception that is not an
    [HTTPException], the answer is 500 with the fixed detail
    "An error occurred while processing the image.": the message of the
    exception does not reach the client. *)
Theorem detect_collaborator_failure_is_generic
    (g : Env) (file : UploadFile) (w : World) (img : ndarray)
    (analyze : string -> string -> gmap string disk_file
               -> result (option AnalysisResults)) (e : exn) :
  analyze_skin_image g = Some analyze ->
  type_in (content_type file) allowed_types = true ->
  content file <> [] ->
  cv2_imdecode g (content file) = Some img ->
  cv2_imwrite_error g (temp_path g file) = None ->
  os_path_exists (MODEL_WEIGHTS_PATH g) w = true ->
  analyze (MODEL_WEIGHTS_PATH g) (temp_path g file)
    (fs (staged_resized g file img w)) = Raise e ->
  (forall status_code detail, e <> HTTPException status_code detail) ->
  fst (detect_skin_conditions g file w) =
    Raise (HTTPException 500 "An error occurred while processing the image.").
Proof.
  intros Hg Ht Hc Hd Hw Hm He Hne.
  rewrite detect_result_of_analysis.
  rewrite (detect_analysis_paths_eq g file w analyze Hg Ht).
  unfold detect_analysis_paths. rewrite Hd, Hw. cbv zeta.
  rewrite (model_exists_staged g file img w Hm), He.
  destruct (tempfile_error (faults g) (Py.splitext_ext (filename file)));
    [reflexivity|].
  destruct (content file) as [|b l]; [done|].
  destruct (write_error (faults g) (temp_path g file) (b :: l)); [reflexivity|].
  destruct (close_error (faults g) (temp_path g file)); [reflexivity|].
  cbn [fst after_except].
  destruct e as [c d| | |]; [by destruct (Hne c d)| | |]; reflexivity.
Qed.

Lemma detect_collaborator_failure_is_generic_witness :
  fst (detect_skin_conditions (ex_env (ex_raises (Exception "CUDA out of memory")))
         ex_upload_png ex_world) =
    Raise (HTTPException 500 "An error occurred while processing the image.").
Proof.
  apply (detect_collaborator_failure_is_generic
           (ex_env (ex_raises (Exception "CUDA out of memory")))
           ex_upload_png ex_world ex_image
           (fun _ _ _ => Raise (Exception "CUDA out of memory"))
           (Exception "CUDA out of memory"));
    first [reflexivity | discriminate].
Defined.

(** X6: an [HTTPException] raised by the detection collaborator, which is
    called once the upload has been staged without error, is raised again
    as it is (source lines 232-234): its status and detail are the answer of
    [/detect]. *)
Theorem detect_collaborator_http_exception_passes
    (g : Env) (file : UploadFile) (w : World) (img : ndarray)
    (analyze : string -> string -> gmap string disk_file
               -> result (option AnalysisResults))
    (status_code : Z) (detail : string) :
  analyze_skin_image g = Some analyze ->
  type_in (content_type file) allowed_types = true ->
  staged_without_error g file ->
  content file <> [] ->
  cv2_imdecode g (content file) = Some img ->
  cv2_imwrite_error g (temp_path g file) = None ->
  os_path_exists (MODEL_WEIGHTS_PATH g) w = true ->
  analyze (MODEL_WEIGHTS_PATH g) (temp_path g file)
    (fs (staged_resized g file img w)) = Raise (HTTPException status_code detail) ->
  fst (detect_skin_conditions g file w) = Raise (HTTPException status_code detail).
Proof.
  intros Hg Ht Hs Hc Hd Hw Hm He.
  rewrite detect_result_of_analysis.
  rewrite (detect_analysis_called_result g file w img analyze) by done.
  rewrite He. reflexivity.
Qed.

Lemma detect_collaborator_http_exception_passes_witness :
  fst (detect_skin_conditions (ex_env (ex_raises (HTTPException 418 "teapot")))
         ex_upload_png ex_world) = Raise (HTTPException 418 "teapot").
Proof.
  apply (detect_collaborator_http_exception_passes
           (ex_env (ex_raises (HTTPException 418 "teapot")))
           ex_upload_png ex_world ex_image
           (fun _ _ _ => Raise (HTTPException 418 "teapot")) 418 "teapot");
    first [reflexivity | discriminate | (repeat split; reflexivity)].
Defined.

(** ** What [/detect] does to the disk *)

(** The disk a call leaves: untouched, or with the empty temporary file, or
    what the [finally] clause makes of a disk with the staged file. *)
Lemma detect_disk_cases (g : Env) (file : UploadFile) (w : World) :
  let w' := snd (detect_analysis g file w) in
  w' = w
  \/ fs w' = <[temp_path g file := FileBytes []]> (fs w)
  \/ (content file <> [] /\
      exists x staged, fs staged = <[temp_path g file := x]> (fs w)
                       /\ w' = after_finally g (temp_path g file) staged).
Proof.
  intros w'. subst w'.
  destruct (analyze_skin_image g) as [analyze|] eqn:E.
  2: { left. unfold detect_analysis. rewrite E. reflexivity. }
  destruct (type_in (content_type file) allowed_types) eqn:Ht.
  2: { left. unfold detect_analysis. rewrite E, Ht. reflexivity. }
  destruct (tempfile_error (faults g) (Py.splitext_ext (filename file)))
    as [m|] eqn:Hn.
  { left. by rewrite (detect_analysis_tempfile_raises g file w analyze E Ht m Hn). }
  destruct (content file) as [|b l] eqn:Hc.
  { right. left. rewrite (detect_analysis_paths_eq g file w analyze E Ht).
    unfold detect_analysis_paths. by rewrite Hn, Hc. }
  assert (Hne : content file <> []) by (rewrite Hc; discriminate).
  rewrite <- Hc. clear Hc.
  destruct (write_error (faults g) (temp_path g file) (content file))
    as [m|] eqn:Hwr.
  { right. left.
    by rewrite (detect_analysis_write_raises g file w analyze E Ht m Hn Hne Hwr). }
  right. right. split; [exact Hne|].
  destruct (detect_analysis_written g file w analyze E Ht Hn Hne Hwr)
    as (r & w1 & x & -> & Hx).
  by exists x, w1.
Qed.

Lemma detect_analysis_other_paths
    (g : Env) (file : UploadFile) (w : World) (path : string) :
  path <> temp_path g file ->
  fs (snd (detect_analysis g file w)) !! path = fs w !! path.
Proof.
  intros Hne.
  destruct (detect_disk_cases g file w) as [-> | [-> | [_ [x [staged [Hs ->]]]]]].
  - reflexivity.
  - by rewrite lookup_insert_ne.
  - rewrite after_finally_other by done. rewrite Hs. by rewrite lookup_insert_ne.
Qed.

(** X7: a [/detect] call changes no file other than its own temporary file:
    every other path holds after the call what it held before. *)
Theorem detect_touches_only_temp_file
    (g : Env) (file : UploadFile) (w : World) (path : string) :
  path <> temp_path g file ->
  fs (snd (detect_skin_conditions g file w)) !! path = fs w !! path.
Proof.
  intros Hne. rewrite detect_world. by apply detect_analysis_other_paths.
Qed.

Lemma detect_touches_only_temp_file_witness :
  fs (snd (detect_skin_conditions (ex_env (ex_returns ex_results_bare))
             ex_upload_png ex_world)) !! "/srv/back/src/detection/best.pt"
  = fs ex_world !! "/srv/back/src/detection/best.pt".
Proof.
  apply (detect_touches_only_temp_file (ex_env (ex_returns ex_results_bare))
           ex_upload_png ex_world "/srv/back/src/detection/best.pt").
  discriminate.
Defined.

(** X8: when the name picked for the temporary file is new and [os.remove]
    works, a call whose non-empty upload is written to the temporary file
    (the file is created and [temp_image_file.write] returns) leaves the
    disk exactly as it found it: the one file it created is removed and
    nothing else changed. *)
Theorem detect_restores_disk (g : Env) (file : UploadFile) (w : World) :
  fs w !! temp_path g file = None ->
  temp_path g file <> "" ->
  os_remove_error g (temp_path g file) = None ->
  tempfile_error (faults g) (Py.splitext_ext (filename file)) = None ->
  content file <> [] ->
  write_error (faults g) (temp_path g file) (content file) = None ->
  fs (snd (detect_skin_conditions g file w)) = fs w.
Proof.
  intros Hfresh Hp Hr Hn Hc Hwr. apply map_eq. intros path.
  destruct (decide (path = temp_path g file)) as [->|Hne].
  2: { rewrite detect_world. by apply detect_analysis_other_paths. }
  rewrite Hfresh, detect_world.
  destruct (analyze_skin_image g) as [analyze|] eqn:E.
  2: { unfold detect_analysis. by rewrite E. }
  destruct (type_in (content_type file) allowed_types) eqn:Ht.
  2: { unfold detect_analysis. by rewrite E, Ht. }
  destruct (detect_analysis_written g file w analyze E Ht Hn Hc Hwr)
    as (r & w1 & x & -> & _).
  by apply after_finally_removes.
Qed.

Lemma detect_restores_disk_witness :
  fs (snd (detect_skin_conditions (ex_env (ex_returns ex_results_bare))
             ex_upload_png ex_world)) = fs ex_world.
Proof.
  apply (detect_restores_disk (ex_env (ex_returns ex_results_bare))
           ex_upload_png ex_world); first [reflexivity | discriminate].
Defined.

(** ** The response of [/detect] *)

Lemma encode_heatmap_result (g : Env) (heatmap_data : option pyobject) (w : World)
    (text : string) :
  fst (encode_heatmap g heatmap_data w) = Ok (Some text) <->
  exists a buffer,
    heatmap_data = Some (PyNdarray a)
    /\ cv2_imencode_png g a = Ok (true, buffer)
    /\ b64encode_decode g buffer = Ok text.
Proof.
  split.
  - destruct heatmap_data as [[a|repr]|]; cbn [encode_heatmap]; try discriminate.
    unfold try_except, bind, call, ret.
    destruct (cv2_imencode_png g a) as [[[] buffer]|e] eqn:He; cbn [fst snd];
      try discriminate.
    destruct (b64encode_decode g buffer) as [t|e] eqn:Hb; cbn [fst];
      try discriminate.
    intros [= <-]. by exists a, buffer.
  - intros (a & buffer & -> & He & Hb). cbn [encode_heatmap].
    unfold try_except, bind, call, ret. rewrite He. cbn [fst snd]. by rewrite Hb.
Qed.

Lemma encode_heatmap_returns (g : Env) (heatmap_data : option pyobject) (w : World) :
  exists h, fst (encode_heatmap g heatmap_data w) = Ok h.
Proof.
  destruct heatmap_data as [[a|repr]|]; cbn [encode_heatmap]; try by eexists.
  unfold try_except, bind, call, ret.
  destruct (cv2_imencode_png g a) as [[[] buffer]|e]; cbn [fst snd]; try by eexists.
  destruct (b64encode_decode g buffer); by eexists.
Qed.

(** A successful analysis always gets a response, and the response is the
    one of lines 277-289. *)
Lemma detect_success_returns (g : Env) (file : UploadFile) (w : World)
    (r : AnalysisResults) :
  fst (detect_analysis g file w) = Ok (Some r) ->
  res_success r = Some true ->
  exists resp, fst (detect_skin_conditions g file w) = Ok resp.
Proof.
  intros Ha Hs. rewrite detect_result_of_analysis, Ha.
  cbn [detect_response analysis_failed]. unfold dict_bool, dict_get.
  rewrite Hs. cbn [is_bound orb negb]. unfold bind, ret.
  destruct (encode_heatmap_returns g (res_heatmap_overlay_bgr r) w) as [h Hh].
  destruct (encode_heatmap g (res_heatmap_overlay_bgr r) w) as [[h'|e] w'];
    cbn [fst] in *; [by eexists | discriminate].
Qed.

(** X9: when the collaborator reports success, [/detect] returns a response
    that carries the collaborator's message (or "Analysis successful." when
    it gives none), its score, area, intensity, lesion count and class map
    unchanged, and one detection per detection of the collaborator, in the
    same order, with the same class name and confidence. *)
Theorem detect_success_response (g : Env) (file : UploadFile) (w : World)
    (r : AnalysisResults) :
  fst (detect_analysis g file w) = Ok (Some r) ->
  res_success r = Some true ->
  exists resp dets,
    fst (detect_skin_conditions g file w) = Ok resp
    /\ success resp = true
    /\ (forall m, res_message r = Some m -> message resp = m)
    /\ (res_message r = None -> message resp = "Analysis successful.")
    /\ severity_score resp = res_severity_score r
    /\ percentage_area resp = res_percentage_area r
    /\ average_intensity resp = res_average_intensity r
    /\ lesion_count resp = res_lesion_count r
    /\ model_classes resp = res_model_classes r
    /\ detections resp = Some dets
    /\ length dets = length (default [] (res_detections r))
    /\ (forall i d, default [] (res_detections r) !! i = Some d ->
          exists d', dets !! i = Some d'
                     /\ class_name d' = det_class_name d
                     /\ confidence d' = det_confidence d).
Proof.
  intros Ha Hs.
  destruct (detect_success_returns g file w r Ha Hs) as [resp Hresp].
  pose proof Hresp as Hresp'.
  rewrite (detect_result g file w _ Ha) in Hresp'.
  apply detect_response_ok in Hresp' as [h [_ ->]].
  eexists _, _. split; [exact Hresp|]. cbn.
  split; [reflexivity|]. split; [by intros m ->|]. split; [by intros ->|].
  do 6 (split; [reflexivity|]).
  assert (Hd : dict_get_default (res_detections r) [] = default [] (res_detections r))
    by (by destruct (res_detections r)).
  rewrite Hd. split; [apply length_map|].
  intros i d Hi. exists (DetectionInfo_of d).
  split; [|split; reflexivity].
  rewrite list_lookup_fmap_Some. eauto.
Qed.

Lemma detect_success_response_witness :
  exists resp dets,
    fst (detect_skin_conditions (ex_env (ex_returns ex_results_full))
           ex_upload_png ex_world) = Ok resp
    /\ success resp = true
    /\ (forall m, res_message ex_results_full = Some m -> message resp = m)
    /\ (res_message ex_results_full = None -> message resp = "Analysis successful.")
    /\ severity_score resp = res_severity_score ex_results_full
    /\ percentage_area resp = res_percentage_area ex_results_full
    /\ average_intensity resp = res_average_intensity ex_results_full
    /\ lesion_count resp = res_lesion_count ex_results_full
    /\ model_classes resp = res_model_classes ex_results_full
    /\ detections resp = Some dets
    /\ length dets = length (default [] (res_detections ex_results_full))
    /\ (forall i d, default [] (res_detections ex_results_full) !! i = Some d ->
          exists d', dets !! i = Some d'
                     /\ class_name d' = det_class_name d
                     /\ confidence d' = det_confidence d).
Proof.
  apply (detect_success_response (ex_env (ex_returns ex_results_full))
           ex_upload_png ex_world ex_results_full).
  - vm_compute. reflexivity.
  - reflexivity.
Defined.

(** X10: the response carries a heatmap exactly when the collaborator gave a
    numpy array under ['heatmap_overlay_bgr'], [cv2.imencode] returned it
    encoded with success, and the base64 step returned a text; the field
    is then that text. A value that is not a numpy array is ignored. *)
Theorem detect_heatmap_field (g : Env) (file : UploadFile) (w : World)
    (r : AnalysisResults) (resp : DetectionResponse) (text : string) :
  fst (detect_analysis g file w) = Ok (Some r) ->
  fst (detect_skin_conditions g file w) = Ok resp ->
  heatmap_image_base64 resp = Some text <->
  exists a buffer,
    res_heatmap_overlay_bgr r = Some (PyNdarray a)
    /\ cv2_imencode_png g a = Ok (true, buffer)
    /\ b64encode_decode g buffer = Ok text.
Proof.
  intros Ha Hresp. rewrite (detect_result g file w _ Ha) in Hresp.
  apply detect_response_ok in Hresp as [h [Hh ->]]. cbn [heatmap_image_base64].
  unfold dict_get in Hh. rewrite <- encode_heatmap_result. rewrite Hh.
  split; [by intros -> | by intros [= ->]].
Qed.

Lemma detect_heatmap_field_witness :
  heatmap_image_base64 ex_response_full = Some "AQ==" <->
  exists a buffer,
    res_heatmap_overlay_bgr ex_results_full = Some (PyNdarray a)
    /\ cv2_imencode_png ex_env_encoding a = Ok (true, buffer)
    /\ b64encode_decode ex_env_encoding buffer = Ok "AQ==".
Proof.
  apply (detect_heatmap_field ex_env_encoding ex_upload_png ex_world
           ex_results_full ex_response_full "AQ==").
  - vm_compute. reflexivity.
  - vm_compute. reflexivity.
Defined.

(** X11: a result without keys counts as no result: when the collaborator
    returns [None] or [{}] the answer is 500 with the detail
    "Analysis function returned invalid data"; when it returns a dictionary
    with some key but neither a true success flag nor a message, the answer
    is 500 with the detail "Unknown analysis error". *)
Theorem detect_failure_without_message (g : Env) (file : UploadFile) (w : World)
    (a : option AnalysisResults) :
  fst (detect_analysis g file w) = Ok a ->
  (forall r, a = Some r -> res_success r <> Some true /\ res_message r = None) ->
  (a = None \/ a = Some empty_results ->
   fst (detect_skin_conditions g file w) =
     Raise (HTTPException 500 "Analysis function returned invalid data"))
  /\ (a <> None -> a <> Some empty_results ->
      fst (detect_skin_conditions g file w) =
        Raise (HTTPException 500 "Unknown analysis error")).
Proof.
  intros Ha Hr. rewrite detect_result_of_analysis, Ha. split.
  - intros [-> | ->]; reflexivity.
  - intros Hnone Hempty. destruct a as [r|]; [|done].
    destruct (Hr r eq_refl) as [Hs Hm].
    assert (Hfail : analysis_failed (Some r) = true).
    { apply analysis_failed_iff. by intros r' [= <-]. }
    cbn [detect_response]. rewrite Hfail. cbn [raise fst].
    unfold analysis_error. cbn [error_message].
    destruct (dict_bool r) eqn:Hb.
    + unfold dict_get_default. rewrite Hm. reflexivity.
    + exfalso. apply Hempty. f_equal. unfold dict_bool in Hb.
      destruct r as [s m sc pa ai lc hm dt mc]. cbn in *.
      destruct s, m, sc, pa, ai, lc, hm, dt, mc; cbn in Hb; try discriminate.
      reflexivity.
Qed.

Lemma detect_failure_without_message_witness :
  (Some empty_results = None \/ Some empty_results = Some empty_results ->
   fst (detect_skin_conditions (ex_env (ex_returns empty_results))
          ex_upload_png ex_world) =
     Raise (HTTPException 500 "Analysis function returned invalid data"))
  /\ (Some empty_results <> None -> Some empty_results <> Some empty_results ->
      fst (detect_skin_conditions (ex_env (ex_returns empty_results))
             ex_upload_png ex_world) =
        Raise (HTTPException 500 "Unknown analysis error")).
Proof.
  apply (detect_failure_without_message (ex_env (ex_returns empty_results))
           ex_upload_png ex_world (Some empty_results)).
  - vm_compute. reflexivity.
  - intros r [= <-]. split; [discriminate | reflexivity].
Defined.

(** ** Every answer of [/detect] *)

(** The result of the first part of the handler, by the place where it
    stops. *)
Lemma detect_analysis_result_cases (g : Env) (file : UploadFile) (w : World) :
  let r := fst (detect_analysis g file w) in
  r = Raise (HTTPException 501 "Detection analysis feature is not available.")
  \/ r = Raise (HTTPException 415
                 ("Invalid file type '" +:+ format_type (content_type file)
                  +:+ "'. Please upload JPG, PNG, or BMP."))
  \/ r = Raise (HTTPException 400 "Received empty file content.")
  \/ r = Raise (HTTPException 400 "Could not read the uploaded image.")
  \/ r = Raise (HTTPException 500 "An error occurred while processing the image.")
  \/ r = Raise (HTTPException 503
                 "Required analysis model file is currently unavailable.")
  \/ exists analyze model_path image_path disk,
       analyze_skin_image g = Some analyze
       /\ r = after_except (analyze model_path image_path disk).
Proof.
  intros r. subst r.
  destruct (analyze_skin_image g) as [analyze|] eqn:E.
  2: { left. unfold detect_analysis. rewrite E. reflexivity. }
  destruct (type_in (content_type file) allowed_types) eqn:Ht.
  2: { right. left. unfold detect_analysis. rewrite E, Ht. reflexivity. }
  rewrite (detect_analysis_paths_eq g file w analyze E Ht).
  unfold detect_analysis_paths, processing_error.
  destruct (tempfile_error (faults g) (Py.splitext_ext (filename file)));
    [by do 4 right; left|].
  destruct (content file) as [|b l].
  { destruct (close_error (faults g) (temp_path g file));
      [by do 4 right; left | by do 2 right; left]. }
  destruct (write_error (faults g) (temp_path g file) (b :: l));
    [by do 4 right; left|].
  destruct (close_error (faults g) (temp_path g file));
    [by do 4 right; left|].
  destruct (cv2_imdecode g (b :: l)) as [img|]; [|by do 3 right; left].
  destruct (cv2_imwrite_error g (temp_path g file)); [by do 4 right; left|].
  cbv zeta.
  destruct (os_path_exists (MODEL_WEIGHTS_PATH g) (staged_resized g file img w)).
  - do 6 right. eexists analyze, _, _, _. split; reflexivity.
  - by do 5 right; left.
Qed.

Lemma failure_status_cases (msg : string) :
  failure_status msg = 404 \/ failure_status msg = 500.
Proof. unfold failure_status. destruct (Py.str_in _ _); auto. Qed.

Lemma detect_response_status (g : Env) (a : option AnalysisResults) (w : World) :
  In (http_status (fst (detect_response g a w))) [200; 404; 500].
Proof.
  destruct a as [r|]; cbn [detect_response].
  - destruct (analysis_failed (Some r)).
    + unfold analysis_error. cbn [raise fst http_status].
      destruct (failure_status_cases (error_message (Some r))) as [-> | ->];
        cbn; auto.
    + unfold bind, ret.
      destruct (encode_heatmap_returns g (dict_get (res_heatmap_overlay_bgr r)) w)
        as [h Hh].
      destruct (encode_heatmap g _ w) as [[h'|e] w']; cbn [fst] in *;
        [|discriminate].
      cbn. auto.
  - cbn. auto.
Qed.

(** X12: unless the detection collaborator itself raises an [HTTPException],
    the status of every answer of [/detect] is one of 200, 400, 404, 415,
    500, 501 and 503. *)
Theorem detect_statuses (g : Env) (file : UploadFile) (w : World) :
  (forall analyze model_path image_path disk status_code detail,
     analyze_skin_image g = Some analyze ->
     analyze model_path image_path disk <> Raise (HTTPException status_code detail)) ->
  In (http_status (fst (detect_skin_conditions g file w)))
    [200; 400; 404; 415; 500; 501; 503].
Proof.
  intros Hno. rewrite detect_result_of_analysis.
  destruct (detect_analysis_result_cases g file w)
    as [-> | [-> | [-> | [-> | [-> | [-> | (analyze & m & p & d & Hg & ->)]]]]]];
    try (cbn; tauto).
  destruct (analyze m p d) as [a|e] eqn:He; cbn [after_except].
  - pose proof (detect_response_status g a w) as H. cbn in H |- *. tauto.
  - destruct e as [c t| | |]; [by destruct (Hno analyze m p d c t Hg) | | |];
      cbn; tauto.
Qed.

Lemma detect_statuses_witness :
  In (http_status (fst (detect_skin_conditions
                          (ex_env (ex_raises (Exception "CUDA out of memory")))
                          ex_upload_png ex_world)))
    [200; 400; 404; 415; 500; 501; 503].
Proof.
  apply (detect_statuses (ex_env (ex_raises (Exception "CUDA out of memory")))
           ex_upload_png ex_world).
  intros analyze m p d c t [= <-]. discriminate.
Defined.

(** ** GET /profile/{user_id} *)

(** X13: when the profile store answers, [get_profile_endpoint] returns the
    stored row as it is, and answers 404 "Profile not found" when the store
    has no row for the user: the 404 raised inside the [try] statement is
    raised again by the first [except] clause, not turned into 500. The
    world is left as it was. *)
Theorem get_profile_lookup
    (get : string -> result (option ProfileRow)) (uid : string) (w : World)
    (found : option ProfileRow) :
  get uid = Ok found ->
  get_profile_endpoint (Some get) uid w =
    (match found with
     | Some data => Ok data
     | None => Raise (HTTPException 404 "Profile not found")
     end, w)
  /\ http_status (fst (get_profile_endpoint (Some get) uid w)) <> 500.
Proof.
  intros Hget. unfold get_profile_endpoint, try_except, bind, call.
  rewrite Hget. destruct found; split; first [reflexivity | discriminate].
Qed.

Lemma get_profile_lookup_witness :
  get_profile_endpoint (Some ex_get_profile) "user_2" ex_world =
    (Raise (HTTPException 404 "Profile not found"), ex_world)
  /\ http_status (fst (get_profile_endpoint (Some ex_get_profile) "user_2" ex_world))
     <> 500.
Proof.
  apply (get_profile_lookup ex_get_profile "user_2" ex_world None). reflexivity.
Defined.

(** X14: when the profile store raises an exception that is not an
    [HTTPException], the answer is 500 with the fixed detail
    "Failed to fetch profile.", whatever the exception says; an
    [HTTPException] raised by the store is the answer as it is. *)
Theorem get_profile_failure
    (get : string -> result (option ProfileRow)) (uid : string) (w : World)
    (e : exn) :
  get uid = Raise e ->
  ((forall status_code detail, e <> HTTPException status_code detail) ->
   fst (get_profile_endpoint (Some get) uid w) =
     Raise (HTTPException 500 "Failed to fetch profile."))
  /\ (forall status_code detail, e = HTTPException status_code detail ->
      fst (get_profile_endpoint (Some get) uid w) = Raise e).
Proof.
  intros Hget. unfold get_profile_endpoint, try_except, bind, call.
  rewrite Hget. split.
  - intros Hne. destruct e as [c d| | |]; [by destruct (Hne c d)| | |]; reflexivity.
  - intros c d ->. reflexivity.
Qed.

Lemma get_profile_failure_witness :
  ((forall status_code detail,
      OSError "database is locked" <> HTTPException status_code detail) ->
   fst (get_profile_endpoint (Some (fun _ => Raise (OSError "database is locked")))
          "user_1" ex_world) =
     Raise (HTTPException 500 "Failed to fetch profile."))
  /\ (forall status_code detail,
        OSError "database is locked" = HTTPException status_code detail ->
        fst (get_profile_endpoint
               (Some (fun _ => Raise (OSError "database is locked")))
               "user_1" ex_world) = Raise (OSError "database is locked")).
Proof.
  apply (get_profile_failure (fun _ => Raise (OSError "database is locked"))
           "user_1" ex_world (OSError "database is locked")).
  reflexivity.
Defined.

(** ** GET /analyze/ *)

(** X15: when the database file exists and the correlation collaborator
    returns, [/analyze/] returns its two outputs unchanged; the collaborator
    has been called once, on the database path. *)
Theorem analyze_returns_collaborator_outputs
    (g : Env) (w : World)
    (analyze : string -> gmap string disk_file
               -> result (gmap string (gmap string float) * string))
    (corr : gmap string (gmap string float)) (text : string) :
  analyze_acne_data g = Some analyze ->
  os_path_exists (db_path g) w = true ->
  analyze (db_path g) (fs w) = Ok (corr, text) ->
  exists resp,
    fst (analyze_endpoint g w) = Ok resp
    /\ correlations resp = corr
    /\ summary resp = text
    /\ calls (snd (analyze_endpoint g w)) =
       (calls w ++ [CallAnalyzeAcneData (db_path g)])%list
    /\ fs (snd (analyze_endpoint g w)) = fs w.
Proof.
  intros Hg Hdb Ha. unfold analyze_endpoint. rewrite Hg.
  unfold try_except, bind, gets, modify, call, ret. rewrite Hdb. cbn [negb].
  cbn [fs log_call]. rewrite Ha. eexists. repeat split.
Qed.

Lemma analyze_returns_collaborator_outputs_witness :
  exists resp,
    fst (analyze_endpoint (ex_env None) ex_world_db) = Ok resp
    /\ correlations resp = ∅
    /\ summary resp = "no data"
    /\ calls (snd (analyze_endpoint (ex_env None) ex_world_db)) =
       (calls ex_world_db ++ [CallAnalyzeAcneData (db_path (ex_env None))])%list
    /\ fs (snd (analyze_endpoint (ex_env None) ex_world_db)) = fs ex_world_db.
Proof.
  apply (analyze_returns_collaborator_outputs (ex_env None) ex_world_db
           (fun _ _ => Ok (∅, "no data")) ∅ "no data"); reflexivity.
Defined.

(** X16: when the correlation collaborator raises, its message reaches the
    client: a [FileNotFoundError] gives 404 with the message as detail, also
    when the database file exists; an [OSError] or another exception with
    message [msg] gives 500 with the detail
    "Failed during correlation analysis: " followed by [msg]. *)
Theorem analyze_failure_detail
    (g : Env) (w : World)
    (analyze : string -> gmap string disk_file
               -> result (gmap string (gmap string float) * string))
    (e : exn) (msg : string) :
  analyze_acne_data g = Some analyze ->
  os_path_exists (db_path g) w = true ->
  analyze (db_path g) (fs w) = Raise e ->
  (e = FileNotFoundError msg ->
   fst (analyze_endpoint g w) = Raise (HTTPException 404 msg))
  /\ (e = OSError msg \/ e = Exception msg ->
      fst (analyze_endpoint g w) =
        Raise (HTTPException 500 ("Failed during correlation analysis: " +:+ msg))).
Proof.
  intros Hg Hdb He. unfold analyze_endpoint. rewrite Hg.
  unfold try_except, bind, gets, modify, call, ret. rewrite Hdb. cbn [negb].
  cbn [fs log_call]. rewrite He. split.
  - intros ->. reflexivity.
  - intros [-> | ->]; reflexivity.
Qed.

Lemma analyze_failure_detail_witness :
  (Exception "no such table: acne" = FileNotFoundError "no such table: acne" ->
   fst (analyze_endpoint
          (with_services (ex_env None)
             (Some (fun _ _ => Raise (Exception "no such table: acne"))) None)
          ex_world_db) = Raise (HTTPException 404 "no such table: acne"))
  /\ (Exception "no such table: acne" = OSError "no such table: acne"
      \/ Exception "no such table: acne" = Exception "no such table: acne" ->
      fst (analyze_endpoint
             (with_services (ex_env None)
                (Some (fun _ _ => Raise (Exception "no such table: acne"))) None)
             ex_world_db) =
        Raise (HTTPException 500
                 "Failed during correlation analysis: no such table: acne")).
Proof.
  apply (analyze_failure_detail
           (with_services (ex_env None)
              (Some (fun _ _ => Raise (Exception "no such table: acne"))) None)
           ex_world_db (fun _ _ => Raise (Exception "no such table: acne"))
           (Exception "no such table: acne") "no such table: acne"); reflexivity.
Defined.

(** X17: the status of every answer of [/analyze/] is one of 200, 404, 500
    and 501, whatever the collaborator does: even an [HTTPException] that it
    raises is answered 500. *)
Theorem analyze_statuses (g : Env) (w : World) :
  In (http_status (fst (analyze_endpoint g w))) [200; 404; 500; 501].
Proof.
  unfold analyze_endpoint. destruct (analyze_acne_data g) as [analyze|].
  2: { cbn. tauto. }
  unfold try_except, bind, gets, modify, call, ret, raise.
  destruct (os_path_exists (db_path g) w); cbn [negb].
  - cbn [fs log_call]. destruct (analyze (db_path g) (fs w)) as [r|[]]; cbn; tauto.
  - cbn. tauto.
Qed.

(** ** POST /profile/ *)

(** X18: when the profile store is available it is called exactly once per
    request, with the fields of the profile and the date of birth as ISO
    text, whether it then returns or raises; the answer is the fixed
    acknowledgement exactly when it returns. *)
Theorem save_profile_calls_store_once
    (g : Env) (profile : Profile) (w : World) (save : ProfileRow -> result unit) :
  save_profile_to_db g = Some save ->
  calls (snd (save_profile_endpoint g profile w)) =
    (calls w ++ [CallSaveProfileToDb
                   {| row_user_id := user_id profile;
                      row_name := name profile;
                      row_dob := isoformat (dob profile);
                      row_height := height profile;
                      row_weight := weight profile;
                      row_gender := gender profile |}])%list
  /\ (fst (save_profile_endpoint g profile w) =
        Ok {[ "message" := "Profile saved successfully" ]}
      <-> save (profile_row profile) = Ok tt).
Proof.
  intros Hg. unfold save_profile_endpoint. rewrite Hg.
  unfold try_except, bind, modify, call, ret, raise.
  destruct (save (profile_row profile)) as [[]|e]; cbn [fst snd calls log_call].
  - split; [reflexivity|]. split; reflexivity.
  - split; [reflexivity|]. split; discriminate.
Qed.

Lemma save_profile_calls_store_once_witness :
  calls (snd (save_profile_endpoint (with_services (ex_env None) None
                                       (Some (fun _ => Ok tt)))
                ex_profile ex_world)) =
    (calls ex_world ++ [CallSaveProfileToDb ex_row])%list
  /\ (fst (save_profile_endpoint (with_services (ex_env None) None
                                     (Some (fun _ => Ok tt)))
             ex_profile ex_world) =
        Ok {[ "message" := "Profile saved successfully" ]}
      <-> Ok tt = Ok tt).
Proof.
  apply (save_profile_calls_store_once
           (with_services (ex_env None) None (Some (fun _ => Ok tt)))
           ex_profile ex_world (fun _ => Ok tt)).
  reflexivity.
Defined.

Lemma zfill_in_range (width : nat) (bound n : Z) :
  forallb (zfill_reads_back width) (seq 0 (Z.to_nat bound)) = true ->
  0 <= n < bound ->
  String.length (Py.zfill width n) = width
  /\ int_of_digits 0 (Py.zfill width n) = Some n.
Proof.
  intros Hall Hn. rewrite forallb_forall in Hall.
  specialize (Hall (Z.to_nat n)).
  rewrite in_seq in Hall. unfold zfill_reads_back in Hall.
  rewrite Z2Nat.id in Hall by lia.
  apply andb_prop in Hall as [Hlen Hval]; [|lia].
  apply Nat.eqb_eq in Hlen. apply bool_decide_eq_true in Hval. done.
Qed.

Lemma zfill_4_digits :
  forallb (zfill_reads_back 4) (seq 0 (Z.to_nat 10000)) = true.
Proof. vm_compute. reflexivity. Qed.

Lemma zfill_2_digits :
  forallb (zfill_reads_back 2) (seq 0 (Z.to_nat 100)) = true.
Proof. vm_compute. reflexivity. Qed.

Lemma append_length (s t : string) :
  String.length (s +:+ t) = (String.length s + String.length t)%nat.
Proof.
  induction s as [|c s IH]; [reflexivity|].
  change (S (String.length (s +:+ t)) = S (String.length s + String.length t)).
  by rewrite IH.
Qed.

(** Two texts that start with parts of the same length are equal only if
    these parts and the rests are. *)
Lemma append_inj_length (s1 s2 t1 t2 : string) :
  String.length s1 = String.length s2 ->
  s1 +:+ t1 = s2 +:+ t2 ->
  s1 = s2 /\ t1 = t2.
Proof.
  revert s2. induction s1 as [|c s1 IH]; intros [|c' s2] Hlen H; try discriminate.
  - done.
  - change (String c (s1 +:+ t1) = String c' (s2 +:+ t2)) in H.
    injection H as -> H. injection Hlen as Hlen.
    destruct (IH s2 Hlen H) as [-> ->]. done.
Qed.

(** X19: for dates of birth in Python's range (year 1 to 9999, month 1 to
    12, day 1 to 31) the text sent to the profile store has ten characters,
    and two profiles are sent with the same text only if their dates of
    birth are the same. *)
Theorem profile_row_dob_canonical (p1 p2 : Profile) :
  1 <= year (dob p1) <= 9999 -> 1 <= month (dob p1) <= 12 -> 1 <= day (dob p1) <= 31 ->
  1 <= year (dob p2) <= 9999 -> 1 <= month (dob p2) <= 12 -> 1 <= day (dob p2) <= 31 ->
  String.length (row_dob (profile_row p1)) = 10%nat
  /\ (row_dob (profile_row p1) = row_dob (profile_row p2) -> dob p1 = dob p2).
Proof.
  intros Hy1 Hm1 Hd1 Hy2 Hm2 Hd2. cbn [row_dob profile_row]. unfold isoformat.
  destruct (dob p1) as [y1 m1 d1], (dob p2) as [y2 m2 d2]. cbn [year month day] in *.
  destruct (zfill_in_range 4 10000 y1 zfill_4_digits) as [Ly1 Vy1]; [lia|].
  destruct (zfill_in_range 4 10000 y2 zfill_4_digits) as [Ly2 Vy2]; [lia|].
  destruct (zfill_in_range 2 100 m1 zfill_2_digits) as [Lm1 Vm1]; [lia|].
  destruct (zfill_in_range 2 100 m2 zfill_2_digits) as [Lm2 Vm2]; [lia|].
  destruct (zfill_in_range 2 100 d1 zfill_2_digits) as [Ld1 Vd1]; [lia|].
  destruct (zfill_in_range 2 100 d2 zfill_2_digits) as [Ld2 Vd2]; [lia|].
  split.
  - rewrite !append_length, Ly1, Lm1, Ld1. reflexivity.
  - intros H.
    apply append_inj_length in H as [Hy H]; [|congruence].
    apply (append_inj_length "-" "-") in H as [_ H]; [|reflexivity].
    apply append_inj_length in H as [Hm H]; [|congruence].
    apply (append_inj_length "-" "-") in H as [_ Hd]; [|reflexivity].
    rewrite Hy in Vy1. rewrite Hm in Vm1. rewrite Hd in Vd1.
    congruence.
Qed.

Lemma profile_row_dob_canonical_witness :
  String.length (row_dob (profile_row ex_profile)) = 10%nat
  /\ (row_dob (profile_row ex_profile) = row_dob (profile_row ex_profile) ->
      dob ex_profile = dob ex_profile).
Proof.
  apply (profile_row_dob_canonical ex_profile ex_profile); cbn; lia.
Defined.

(** ** The configured paths *)

Lemma endswith_slash_cons (c : ascii) (p : string) :
  Py.endswith "/" (String c p) =
    match p with
    | EmptyString => Ascii.eqb c "/"
    | String _ _ => Py.endswith "/" p
    end.
Proof.
  unfold Py.endswith. destruct p as [|d p].
  { cbn [String.length Nat.leb Nat.sub substring String.eqb].
    by destruct (Ascii.eqb c "/"). }
  cbn [String.length]. change (1 <=? S (S (String.length p)))%nat with true.
  change (1 <=? S (String.length p))%nat with true. cbn iota.
  replace (S (S (String.length p)) - 1)%nat with (S (String.length p)) by lia.
  replace (S (String.length p) - 1)%nat with (String.length p) by lia.
  reflexivity.
Qed.

Lemma endswith_slash_app (a b : string) :
  b <> "" -> Py.endswith "/" (a +:+ b) = Py.endswith "/" b.
Proof.
  intros Hb. induction a as [|c a IH]; [reflexivity|].
  change (Py.endswith "/" (String c (a +:+ b)) = Py.endswith "/" b).
  rewrite endswith_slash_cons.
  destruct (a +:+ b) as [|d s] eqn:E; [|exact IH].
  destruct a; [by destruct Hb | discriminate].
Qed.

Lemma append_assoc (a b c : string) : (a +:+ b) +:+ c = a +:+ b +:+ c.
Proof.
  induction a as [|x a IH]; [reflexivity|].
  change (String x ((a +:+ b) +:+ c) = String x (a +:+ b +:+ c)). by rewrite IH.
Qed.

Lemma append_not_empty (a b : string) : b <> "" -> a +:+ b <> "".
Proof. intros Hb. destruct a; [exact Hb | discriminate]. Qed.

(** [os.path.join] of a directory and a relative component. *)
Lemma join1_relative (path b : string) :
  path <> "" ->
  Py.endswith "/" path = false ->
  Py.startswith "/" b = false ->
  Py.join1 path b = path +:+ "/" +:+ b.
Proof.
  intros Hp He Hb. unfold Py.join1. rewrite Hb, He.
  apply String.eqb_neq in Hp. rewrite Hp. reflexivity.
Qed.

(** X20: for a [BACK_DIR] that is not empty and does not end with "/" (as
    [os.path.abspath] returns it, the root apart), the database is looked
    up at [BACK_DIR/acne_tracker.db] (the empty component of the
    [os.path.join] of line 158 adds nothing) and the model weights at
    [BACK_DIR/src/detection/best.pt]. *)
Theorem configured_paths (g : Env) :
  BACK_DIR g <> "" ->
  Py.endswith "/" (BACK_DIR g) = false ->
  db_path g = BACK_DIR g +:+ "/acne_tracker.db"
  /\ db_path g = Py.os_path_join (BACK_DIR g) ["acne_tracker.db"]
  /\ MODEL_WEIGHTS_PATH g = BACK_DIR g +:+ "/src/detection/best.pt".
Proof.
  intros Hp He. unfold db_path, MODEL_WEIGHTS_PATH, Py.os_path_join.
  cbn [fold_left]. split; [|split].
  - rewrite (join1_relative (BACK_DIR g) "") by done.
    unfold Py.join1. cbn [Py.startswith].
    rewrite endswith_slash_app by discriminate.
    change (Py.endswith "/" "/") with true. rewrite orb_true_r.
    by rewrite append_assoc.
  - rewrite (join1_relative (BACK_DIR g) "") by done.
    rewrite (join1_relative (BACK_DIR g) "acne_tracker.db") by done.
    unfold Py.join1. cbn [Py.startswith].
    rewrite endswith_slash_app by discriminate.
    change (Py.endswith "/" "/") with true. rewrite orb_true_r.
    by rewrite append_assoc.
  - rewrite (join1_relative (BACK_DIR g) "src") by done.
    rewrite (join1_relative _ "detection");
      [| by apply append_not_empty
       | by rewrite endswith_slash_app
       | done].
    rewrite (join1_relative _ "best.pt");
      [| by apply append_not_empty
       | by rewrite endswith_slash_app
       | done].
    by rewrite !append_assoc.
Qed.

Lemma configured_paths_witness :
  db_path (ex_env None) = "/srv/back" +:+ "/acne_tracker.db"
  /\ db_path (ex_env None) = Py.os_path_join "/srv/back" ["acne_tracker.db"]
  /\ MODEL_WEIGHTS_PATH (ex_env None) = "/srv/back" +:+ "/src/detection/best.pt".
Proof.
  apply (configured_paths (ex_env None)); [discriminate | reflexivity].
Defined.

(** ** The name of the temporary file *)

Lemma rfind_from_shift (c : ascii) (s : string) (i : nat) (last : option nat) :
  Py.rfind_from c s i last =
    match Py.rfind_from c s 0 None with
    | Some j => Some (i + j)%nat
    | None => last
    end.
Proof.
  revert i last. induction s as [|d s IH]; intros i last; [reflexivity|].
  cbn [Py.rfind_from]. rewrite (IH (S i)), (IH 1%nat).
  destruct (Py.rfind_from c s 0 None) as [j|]; [f_equal; lia|].
  destruct (Ascii.eqb c d); [f_equal; lia | reflexivity].
Qed.

(** [str.rfind] by recursion on the text. *)
Lemma rfind_cons (c d : ascii) (s : string) :
  Py.rfind c (String d s) =
    match Py.rfind c s with
    | Some j => Some (S j)
    | None => if Ascii.eqb c d then Some 0%nat else None
    end.
Proof.
  unfold Py.rfind. cbn [Py.rfind_from]. rewrite rfind_from_shift.
  destruct (Py.rfind_from c s 0 None); reflexivity.
Qed.

(** The index [str.rfind] returns is that of an occurrence with no later
    one. *)
Lemma rfind_Some (c : ascii) (s : string) (j : nat) :
  Py.rfind c s = Some j ->
  exists pre rest,
    s = pre +:+ String c rest /\ String.length pre = j /\ Py.rfind c rest = None.
Proof.
  revert j. induction s as [|d s IH]; intros j; [discriminate|].
  rewrite rfind_cons. destruct (Py.rfind c s) as [k|] eqn:E.
  - intros [= <-]. destruct (IH k eq_refl) as (pre & rest & -> & <- & Hr).
    by exists (String d pre), rest.
  - destruct (Ascii.eqb c d) eqn:Hcd; [|discriminate].
    intros [= <-]. apply Ascii.eqb_eq in Hcd as <-. by exists "", s.
Qed.

Lemma rfind_None_suffix (c : ascii) (a b : string) :
  Py.rfind c (a +:+ b) = None -> Py.rfind c b = None.
Proof.
  induction a as [|d a IH]; [done|].
  change (Py.rfind c (String d (a +:+ b)) = None -> Py.rfind c b = None).
  rewrite rfind_cons. destruct (Py.rfind c (a +:+ b)); [discriminate|]. auto.
Qed.

Lemma rfind_None_not_in (c : ascii) (s : string) :
  Py.rfind c s = None -> Py.str_in (String c "") s = false.
Proof.
  induction s as [|d s IH]; [reflexivity|].
  rewrite rfind_cons. destruct (Py.rfind c s); [discriminate|].
  destruct (Ascii.eqb c d) eqn:Hcd; [discriminate|]. intros _.
  cbn [Py.str_in Py.startswith]. rewrite Hcd. cbn [andb orb]. by apply IH.
Qed.

Lemma substring_all (t : string) : substring 0 (String.length t) t = t.
Proof.
  induction t as [|c t IH]; [reflexivity|].
  cbn [String.length substring]. by rewrite IH.
Qed.

Lemma substring_suffix (pre t : string) :
  substring (String.length pre)
    (String.length (pre +:+ t) - String.length pre) (pre +:+ t) = t.
Proof.
  induction pre as [|c pre IH].
  - cbn [String.length String.append]. rewrite Nat.sub_0_r. apply substring_all.
  - change (substring (S (String.length pre))
              (S (String.length (pre +:+ t)) - S (String.length pre))
              (String c (pre +:+ t)) = t).
    cbn [substring Nat.sub]. exact IH.
Qed.

(** Of two ways to cut a text, the one that cuts later leaves a suffix of
    what the other leaves. *)
Lemma later_cut_is_suffix (pre pre' ext rest : string) (c : ascii) :
  pre +:+ ext = pre' +:+ String c rest ->
  (String.length pre' < String.length pre)%nat ->
  exists mid, rest = mid +:+ ext.
Proof.
  revert pre. induction pre' as [|y pre' IH]; intros [|x pre] H Hlen;
    cbn [String.length] in Hlen; try lia.
  - change (String x (pre +:+ ext) = String c rest) in H.
    injection H as _ <-. by exists pre.
  - change (String x (pre +:+ ext) = String y (pre' +:+ String c rest)) in H.
    injection H as _ H. apply (IH pre H). lia.
Qed.

(** X21: the suffix given to the temporary file is a suffix of the uploaded
    file name, is empty or starts with a dot, and contains no "/": whatever
    name the client sends, the temporary file is named by the name that
    [tempfile] picked followed by an extension without a path separator. *)
Theorem temp_file_suffix (g : Env) (file : UploadFile) :
  let ext := Py.splitext_ext (filename file) in
  temp_path g file = tempfile_stem g +:+ ext
  /\ (exists stem, filename file = stem +:+ ext)
  /\ (ext = "" \/ exists rest, ext = String "." rest /\ Py.str_in "." rest = false)
  /\ Py.str_in "/" ext = false.
Proof.
  intros ext. subst ext. split; [reflexivity|].
  set (p := filename file). unfold Py.splitext_ext.
  assert (Hempty : (exists stem, p = stem +:+ "")
                   /\ ("" = "" \/ exists rest, "" = String "." rest
                                               /\ Py.str_in "." rest = false)
                   /\ Py.str_in "/" "" = false).
  { split; [exists p; by rewrite append_empty_r|]. split; [by left | reflexivity]. }
  destruct (Py.rfind "." p) as [dot|] eqn:Hdot; [|exact Hempty].
  destruct ((_ <=? dot)%nat && _) eqn:Hcond; [|exact Hempty].
  apply andb_prop in Hcond as [Hidx _]. apply Nat.leb_le in Hidx.
  destruct (rfind_Some "." p dot Hdot) as (pre & rest & Hp & Hlen & Hrest).
  assert (Hext : substring dot (String.length p - dot) p = String "." rest).
  { rewrite Hp, <- Hlen. apply substring_suffix. }
  rewrite Hext. split; [by exists pre|]. split.
  { right. exists rest. split; [reflexivity|]. by apply rfind_None_not_in. }
  apply (rfind_None_not_in "/").
  destruct (Py.rfind "/" p) as [sep|] eqn:Hsep.
  - destruct (rfind_Some "/" p sep Hsep) as (pre' & rest' & Hp' & Hlen' & Hrest').
    rewrite Hp in Hp'.
    destruct (later_cut_is_suffix pre pre' (String "." rest) rest' "/" Hp')
      as [mid ->]; [lia|].
    by apply rfind_None_suffix in Hrest'.
  - rewrite Hp in Hsep. by apply rfind_None_suffix in Hsep.
Qed.

(** ** More on the clean-up and on the write of the resized image *)

Lemma after_finally_fails (g : Env) (p msg : string) (w : World) :
  os_remove_error g p = Some msg -> after_finally g p w = w.
Proof. intros Hr. unfold after_finally. rewrite Hr. by destruct (_ && _). Qed.

(** X22: when [os.remove] fails on the temporary file that a call with a
    non-empty upload has created, the file stays on disk after the call
    (the failure is only printed). *)
Theorem detect_cleanup_failure_keeps_file
    (g : Env) (file : UploadFile) (w : World) (msg : string) :
  is_bound (analyze_skin_image g) = true ->
  type_in (content_type file) allowed_types = true ->
  tempfile_error (faults g) (Py.splitext_ext (filename file)) = None ->
  content file <> [] ->
  os_remove_error g (temp_path g file) = Some msg ->
  os_path_exists (temp_path g file) (snd (detect_skin_conditions g file w)) = true.
Proof.
  intros Hg Ht Hn Hc Hr. rewrite detect_world.
  destruct (analyze_skin_image g) as [analyze|] eqn:E; [|done].
  destruct (write_error (faults g) (temp_path g file) (content file))
    as [m|] eqn:Hwr.
  { rewrite (detect_analysis_write_raises g file w analyze E Ht m Hn Hc Hwr).
    unfold os_path_exists. cbn [snd fs set_fs]. by rewrite lookup_insert_eq. }
  destruct (detect_analysis_written g file w analyze E Ht Hn Hc Hwr)
    as (r & w1 & x & -> & Hx).
  cbn [snd]. rewrite (after_finally_fails g _ msg) by done.
  unfold os_path_exists. by rewrite Hx, lookup_insert_eq.
Qed.

Lemma detect_cleanup_failure_keeps_file_witness :
  os_path_exists "/tmp/tmpk3x9.png"
    (snd (detect_skin_conditions ex_env_remove_denied ex_upload_png ex_world)) = true.
Proof.
  apply (detect_cleanup_failure_keeps_file ex_env_remove_denied ex_upload_png
           ex_world "[Errno 13] Permission denied");
    first [reflexivity | discriminate].
Defined.

(** X23: when [cv2.imwrite] raises on the temporary path (no encoder for
    its extension), an upload that decodes is answered 500
    "An error occurred while processing the image." and the detection
    collaborator is not called. *)
Theorem detect_unwritable_image
    (g : Env) (file : UploadFile) (w : World) (img : ndarray) (msg : string) :
  is_bound (analyze_skin_image g) = true ->
  type_in (content_type file) allowed_types = true ->
  content file <> [] ->
  cv2_imdecode g (content file) = Some img ->
  cv2_imwrite_error g (temp_path g file) = Some msg ->
  fst (detect_skin_conditions g file w) =
    Raise (HTTPException 500 "An error occurred while processing the image.")
  /\ calls (snd (detect_skin_conditions g file w)) = calls w.
Proof.
  intros Hg Ht Hc Hd Hw.
  destruct (analyze_skin_image g) as [analyze|] eqn:E; [|done].
  pose proof (detect_analysis_paths_eq g file w analyze E Ht) as Ha.
  unfold detect_analysis_paths, processing_error in Ha. rewrite Hd, Hw in Ha.
  destruct (tempfile_error (faults g) (Py.splitext_ext (filename file))).
  { by rewrite (detect_raises g file w _ _ Ha). }
  destruct (content file) as [|b l]; [done|].
  destruct (write_error (faults g) (temp_path g file) (b :: l)).
  { by rewrite (detect_raises g file w _ _ Ha). }
  destruct (close_error (faults g) (temp_path g file));
    rewrite (detect_raises g file w _ _ Ha); cbn [fst snd];
    (split; [reflexivity|]); by rewrite calls_after_finally.
Qed.

Lemma detect_unwritable_image_witness :
  fst (detect_skin_conditions ex_env_png_only ex_upload_blob ex_world) =
    Raise (HTTPException 500 "An error occurred while processing the image.")
  /\ calls (snd (detect_skin_conditions ex_env_png_only ex_upload_blob ex_world))
     = calls ex_world.
Proof.
  apply (detect_unwritable_image ex_env_png_only ex_upload_blob ex_world ex_image
           "could not find a writer for the specified extension");
    first [reflexivity | discriminate].
Defined.

(** ** Failures while the upload is staged *)


